(** * DNSSEC security tester: policy engine, chain walker and orchestrator

    A shallow embedding of [dnssec_tester] (models.py, validator.py,
    resolver.py, tester.py, analyzer.py) together with the properties of
    its policy checks, its chain walk and its per-domain orchestration.

    Conventions.
    - A Python [datetime] is the number of microseconds since the epoch
      (a [Z]); [(a - b).days] is the floor of the difference divided by
      the length of a day, as [timedelta] normalises it.
    - Everything the program obtains from outside (the wall clock, the
      timer, the DNS transport, dnspython's parsing helpers) is a field of
      an environment record [Env]; the [World] counts how often each
      source has been consulted, so that the n-th reading of the clock and
      the n-th answer of the network may each differ from the one before.
    - Code that may raise returns a [Result]; code with effects lives in
      the monad [M], a state monad over [World] with results in [Result]. *)

From Stdlib Require Import ZArith List String Ascii Bool Lia Floats DecimalString.
From Equations Require Import Equations.
From Equations.Prop Require Import Logic.
Import ListNotations.
Local Open Scope string_scope.
Local Open Scope Z_scope.

(** ** Python strings *)

Module PyStr.

(** [str.upper()] on ASCII letters; every other character is kept.
    Algorithm mnemonics are ASCII. *)
Definition upper_char (c : ascii) : ascii :=
  let n := nat_of_ascii c in
  if andb (Nat.leb 97 n) (Nat.leb n 122) then ascii_of_nat (n - 32) else c.

Fixpoint upper (s : string) : string :=
  match s with
  | EmptyString => EmptyString
  | String c s' => String (upper_char c) (upper s')
  end.

Definition lower_char (c : ascii) : ascii :=
  let n := nat_of_ascii c in
  if andb (Nat.leb 65 n) (Nat.leb n 90) then ascii_of_nat (n + 32) else c.

Fixpoint lower (s : string) : string :=
  match s with
  | EmptyString => EmptyString
  | String c s' => String (lower_char c) (lower s')
  end.

(** [sub in s] *)
Fixpoint contains (sub s : string) : bool :=
  if prefix sub s then true
  else match s with
       | EmptyString => false
       | String _ s' => contains sub s'
       end.

(** [str(n)] for an int *)
Definition of_int (n : Z) : string := NilZero.string_of_int (Z.to_int n).

(** [sep.join(l)] *)
Definition join (sep : string) (l : list string) : string := String.concat sep l.

(** [x in S] for a set of strings *)
Definition mem (x : string) (S : list string) : bool := existsb (String.eqb x) S.

End PyStr.

(** ** Python lists *)

(** [l.append(x)], as the new value of [l] *)
Definition list_append {A} (l : list A) (x : A) : list A := (l ++ [x])%list.

(** [l.extend(l')], as the new value of [l] *)
Definition list_extend {A} (l l' : list A) : list A := (l ++ l')%list.

(** ** models.py *)

Inductive Severity := CRITICAL | HIGH | MEDIUM | LOW | INFO.

Definition Severity_eqb (a b : Severity) : bool :=
  match a, b with
  | CRITICAL, CRITICAL | HIGH, HIGH | MEDIUM, MEDIUM | LOW, LOW | INFO, INFO => true
  | _, _ => false
  end.

Inductive IssueType :=
| CHAIN_INVALID | SIGNATURE_EXPIRED | ALGORITHM_WEAK | KEY_WEAK | DS_MISMATCH
| EXPIRATION_WARNING | CONFIGURATION_ISSUE | KEY_ROLLOVER | NSEC_ISSUE
| TRUST_ANCHOR_ISSUE.

(** A [datetime], in microseconds since the epoch. *)
Definition datetime := Z.

Definition microseconds_per_day : Z := 86400000000.

(** [(a - b).days] *)
Definition timedelta_days (a b : datetime) : Z := (a - b) / microseconds_per_day.

Record SecurityIssue := {
  type : IssueType;
  severity : Severity;
  message : string;
  details : option string;
  remediation : option string;
  affected_rrset : option string;
  issue_timestamp : datetime
}.

Record KeyInfo := {
  keytag : Z;
  algorithm : string;
  bits : Z;
  flags : Z;
  is_ksk : bool;
  is_zsk : bool;
  valid_from : option datetime;
  valid_until : option datetime;
  public_key : option string
}.

Record ChainElement := {
  name : string;
  rdtype : string;
  valid : bool;
  keys : list KeyInfo;
  signatures : list string;
  issues : list SecurityIssue;
  element_details : list (string * string)
}.

Record ValidationResult := {
  domain : string;
  timestamp : datetime;
  dnssec_enabled : bool;
  chain_valid : bool;
  validation_time_ms : float;
  chain_of_trust : list ChainElement;
  ksk_list : list KeyInfo;
  zsk_list : list KeyInfo;
  security_issues : list SecurityIssue;
  total_rrsets_signed : Z;
  expired_signatures : Z;
  warnings : Z;
  nameservers : list string;
  resolver_used : option string
}.

(** [ValidationResult.overall_status] *)
Definition overall_status (self : ValidationResult) : string :=
  if negb (dnssec_enabled self) then "no_dnssec"
  else if existsb (fun i => Severity_eqb (severity i) CRITICAL) (security_issues self)
  then "critical_issues"
  else if existsb (fun i => Severity_eqb (severity i) HIGH) (security_issues self)
  then "vulnerable"
  else match security_issues self with
       | _ :: _ => "warnings"
       | [] => "secure"
       end.

(** ** config.py *)

Inductive TestMode := FAST | COMPREHENSIVE | DEEP.

Record DNSSECConfig := {
  timeout : Z;
  cfg_nameservers : list string;
  use_dnssec : bool;
  follow_chain : bool;
  mode : TestMode;
  validate_chain : bool;
  check_expiration : bool;
  check_algorithms : bool;
  check_key_strength_enabled : bool;
  verbose : bool;
  parallel_queries : Z;
  cache_results : bool
}.

Definition default_config : DNSSECConfig := {|
  timeout := 10;
  cfg_nameservers := ["8.8.8.8"; "1.1.1.1"];
  use_dnssec := true;
  follow_chain := true;
  mode := COMPREHENSIVE;
  validate_chain := true;
  check_expiration := true;
  check_algorithms := true;
  check_key_strength_enabled := true;
  verbose := false;
  parallel_queries := 3;
  cache_results := true
|}.

(** ** Exceptions, results, the outside world *)

(** A raised exception: its class and [str(e)]. *)
Record exn := Exn { exn_class : string; exn_str : string }.

Inductive Result (A : Type) :=
| Ok (a : A)
| Raise (e : exn).
Arguments Ok {A} a.
Arguments Raise {A} e.

(** A domain name as dnspython holds it: its labels, leftmost first; an
    absolute name ends with the empty label. *)
Definition Name := list string.

Inductive RdType := DNSKEY | DS.

(** One record of an answer: the fields of a DNSKEY record the program reads. *)
Record Rdata := {
  rd_flags : Z;
  rd_algorithm : Z;
  rd_key : string
}.

Definition RRset := list Rdata.

(** An RRSIG-like object; [None] when it has no [expiration] attribute,
    otherwise the POSIX time in seconds. *)
Record RRSIG := { expiration : option Z }.

Record World := {
  clock_reads : nat;   (* calls of datetime.utcnow() so far *)
  timer_reads : nat;   (* calls of time.time() so far *)
  queries : nat        (* calls of Resolver.resolve() so far *)
}.

Definition initial_world : World :=
  {| clock_reads := 0; timer_reads := 0; queries := 0 |}.

Record Env := {
  (* the n-th reading of datetime.utcnow() *)
  utcnow_at : nat -> datetime;
  (* the n-th reading of time.time() *)
  time_at : nat -> float;
  (* the n-th call of dns.resolver.Resolver.resolve: the answer section,
     or the exception it raises (timeout, NXDOMAIN, no answer, ...) *)
  resolve_at : nat -> Name -> RdType -> Result (list RRset);
  (* dns.name.from_text *)
  name_from_text : string -> Result Name;
  (* dns.dnssec.key_id(rdata), as evaluated in tester.py *)
  key_id : Rdata -> Result Z;
  (* dns.dnssec.AlgorithmType.to_text(rdata.algorithm), as evaluated in tester.py *)
  algorithm_to_text : Z -> Result string;
  (* rdata.key.bit_length() *)
  key_bit_length : string -> Result Z;
  (* rdata.key.hex() *)
  key_hex : string -> Result string;
  (* datetime.isoformat() *)
  isoformat : datetime -> string;
  (* the order in which this process iterates over a set of strings *)
  set_order : list string -> list string
}.

Definition M (A : Type) : Type := World -> Result A * World.

Definition ret {A} (a : A) : M A := fun w => (Ok a, w).

Definition bind {A B} (c : M A) (k : A -> M B) : M B :=
  fun w => match c w with
           | (Ok a, w') => k a w'
           | (Raise e, w') => (Raise e, w')
           end.

Notation "x <- c ;; k" := (bind c (fun x => k))
  (at level 61, c at next level, right associativity).

(** [try: c except Exception as e: h e] *)
Definition try_except {A} (c : M A) (h : exn -> M A) : M A :=
  fun w => match c w with
           | (Ok a, w') => (Ok a, w')
           | (Raise e, w') => h e w'
           end.

Definition lift {A} (r : Result A) : M A := fun w => (r, w).

Section Effects.
Variable E : Env.

(** [datetime.utcnow()] *)
Definition utcnow : M datetime :=
  fun w => (Ok (utcnow_at E (clock_reads w)),
            {| clock_reads := S (clock_reads w);
               timer_reads := timer_reads w;
               queries := queries w |}).

(** [time.time()] *)
Definition time_time : M float :=
  fun w => (Ok (time_at E (timer_reads w)),
            {| clock_reads := clock_reads w;
               timer_reads := S (timer_reads w);
               queries := queries w |}).

(** [self.resolver.resolve(name, rdtype)] *)
Definition resolve (n : Name) (t : RdType) : M (list RRset) :=
  fun w => (resolve_at E (queries w) n t,
            {| clock_reads := clock_reads w;
               timer_reads := timer_reads w;
               queries := S (queries w) |}).

(** [SecurityIssue(type=..., severity=..., message=..., details=...,
    remediation=...)]: [timestamp] takes its default,
    [datetime.utcnow()]. *)
Definition new_issue (ty : IssueType) (sev : Severity) (msg : string)
    (det rem : option string) : M SecurityIssue :=
  ts <- utcnow ;;
  ret {| type := ty; severity := sev; message := msg; details := det;
         remediation := rem; affected_rrset := None; issue_timestamp := ts |}.

End Effects.

(** ** validator.py *)

Module DNSSECValidator.

(** RFC 8624 algorithm status tables, with the entries of the source. *)
Definition RECOMMENDED_ALGORITHMS : list string :=
  ["ECDSAP256SHA256"; "ECDSAP384SHA384"; "ED25519"; "ED448"].

Definition DEPRECATED_ALGORITHMS : list string :=
  ["RSAMD5"; "RSASHA1"; "RSASHA1NSEC3SHA1"].

Definition NOT_RECOMMENDED : list string :=
  ["RSASHA256"; "RSASHA512"; "ECDSAP256SHA256"].

(** The [algorithm] argument: annotated [str], tested with
    [isinstance(algorithm, int)]. *)
Inductive AlgorithmArg :=
| AlgName (s : string)
| AlgNumber (n : Z).

(** [str(algorithm)] *)
Definition py_str (a : AlgorithmArg) : string :=
  match a with
  | AlgName s => s
  | AlgNumber n => PyStr.of_int n
  end.

Section Checks.
Variable E : Env.

(** [', '.join(self.RECOMMENDED_ALGORITHMS)] *)
Definition recommended_text : string :=
  PyStr.join ", " (set_order E RECOMMENDED_ALGORITHMS).

Definition check_algorithm_strength (algorithm : AlgorithmArg) : M (list SecurityIssue) :=
  let issues := [] in
  let algo_str := match algorithm with
                  | AlgNumber _ => PyStr.upper (py_str algorithm)
                  | AlgName s => s
                  end in
  if PyStr.mem algo_str DEPRECATED_ALGORITHMS then
    issue <- new_issue E ALGORITHM_WEAK CRITICAL
               ("Algorithm " ++ algo_str ++ " is deprecated per RFC 8624")
               None
               (Some ("Migrate to " ++ recommended_text)) ;;
    ret (list_append issues issue)
  else if PyStr.mem algo_str NOT_RECOMMENDED then
    issue <- new_issue E ALGORITHM_WEAK MEDIUM
               ("Algorithm " ++ algo_str ++ " is not recommended per RFC 8624")
               None
               (Some ("Consider migrating to " ++ recommended_text)) ;;
    ret (list_append issues issue)
  else ret issues.

Definition check_key_strength (algorithm : AlgorithmArg) (bits : Z) : M (list SecurityIssue) :=
  let issues := [] in
  let algo_str := PyStr.upper (py_str algorithm) in
  if PyStr.contains "RSA" algo_str then
    if bits <? 2048 then
      issue <- new_issue E KEY_WEAK CRITICAL
                 ("RSA key too weak (" ++ PyStr.of_int bits
                    ++ " bits, minimum 2048 required)")
                 None
                 (Some "Generate new RSA key with at least 2048 bits") ;;
      ret (list_append issues issue)
    else if bits <? 4096 then
      issue <- new_issue E KEY_WEAK MEDIUM
                 ("RSA key could be stronger (" ++ PyStr.of_int bits
                    ++ " bits, 4096 recommended)")
                 None
                 (Some "Consider upgrading to 4096-bit RSA or ECDSA") ;;
      ret (list_append issues issue)
    else ret issues
  else if PyStr.contains "ECDSA" algo_str then
    if bits <? 256 then
      issue <- new_issue E KEY_WEAK CRITICAL
                 ("ECDSA key too weak (" ++ PyStr.of_int bits
                    ++ " bits, minimum 256 required)")
                 None
                 (Some "Use ECDSA with P-256 or P-384 curve") ;;
      ret (list_append issues issue)
    else ret issues
  else ret issues.

(** [datetime.utcfromtimestamp(seconds)] for an integral POSIX time *)
Definition utcfromtimestamp (seconds : Z) : datetime := seconds * 1000000.

Definition check_signature_expiration (rrsig : RRSIG) : M (list SecurityIssue) :=
  let issues := [] in
  match expiration rrsig with
  | None => ret issues
  | Some seconds =>
    let expiration := utcfromtimestamp seconds in
    now <- utcnow E ;;
    let days_until_expiry := timedelta_days expiration now in
    if days_until_expiry <? 0 then
      issue <- new_issue E SIGNATURE_EXPIRED CRITICAL
                 ("Signature expired " ++ PyStr.of_int (Z.abs days_until_expiry)
                    ++ " days ago")
                 (Some ("Expiration: " ++ isoformat E expiration))
                 (Some "Re-sign the zone immediately") ;;
      ret (list_append issues issue)
    else if days_until_expiry <? 7 then
      issue <- new_issue E EXPIRATION_WARNING HIGH
                 ("Signature expires in " ++ PyStr.of_int days_until_expiry ++ " days")
                 (Some ("Expiration: " ++ isoformat E expiration))
                 (Some "Plan re-signing within 7 days") ;;
      ret (list_append issues issue)
    else if days_until_expiry <? 30 then
      issue <- new_issue E EXPIRATION_WARNING MEDIUM
                 ("Signature expires in " ++ PyStr.of_int days_until_expiry ++ " days")
                 (Some ("Expiration: " ++ isoformat E expiration))
                 (Some "Schedule re-signing within 30 days") ;;
      ret (list_append issues issue)
    else ret issues
  end.

(** The loop [for key in keys: ...] of [check_key_rollover], appending to
    [issues]. *)
Fixpoint rollover_loop (now : datetime) (keys : list KeyInfo)
    (issues : list SecurityIssue) : M (list SecurityIssue) :=
  match keys with
  | [] => ret issues
  | key :: rest =>
    match valid_until key with
    | Some until =>
      let days_until_expiry := timedelta_days until now in
      if andb (0 <? days_until_expiry) (days_until_expiry <? 30) then
        issue <- new_issue E KEY_ROLLOVER MEDIUM
                   ("Key " ++ PyStr.of_int (keytag key) ++ " expires in "
                      ++ PyStr.of_int days_until_expiry ++ " days")
                   None
                   (Some ("Plan key rollover for key " ++ PyStr.of_int (keytag key))) ;;
        rollover_loop now rest (list_append issues issue)
      else rollover_loop now rest issues
    | None => rollover_loop now rest issues
    end
  end.

Definition check_key_rollover (keys : list KeyInfo) : M (list SecurityIssue) :=
  let issues := [] in
  let ksks := filter is_ksk keys in
  let zsks := filter is_zsk keys in
  issues <- match ksks with
            | [] =>
              issue <- new_issue E KEY_WEAK HIGH "No Key Signing Key (KSK) found" None
                         (Some "Zone must have at least one KSK for validation") ;;
              ret (list_append issues issue)
            | _ :: _ => ret issues
            end ;;
  issues <- match zsks with
            | [] =>
              issue <- new_issue E KEY_WEAK HIGH "No Zone Signing Key (ZSK) found" None
                         (Some "Zone must have at least one ZSK for signing records") ;;
              ret (list_append issues issue)
            | _ :: _ => ret issues
            end ;;
  now <- utcnow E ;;
  rollover_loop now keys issues.

End Checks.
End DNSSECValidator.

(** ** dnspython's names, as resolver.py uses them *)

Module DnsName.

(** [dns.name.root] and [dns.name.empty] *)
Definition root : Name := [""].
Definition empty : Name := [].

(** [Name.__eq__]: label by label, ignoring ASCII case *)
Fixpoint eqb (a b : Name) : bool :=
  match a, b with
  | [], [] => true
  | x :: a', y :: b' => andb (String.eqb (PyStr.lower x) (PyStr.lower y)) (eqb a' b')
  | _, _ => false
  end.

Definition NoParent : exn :=
  Exn "NoParent"
      "An attempt was made to get the parent of the root name or the empty name.".

(** [Name.parent()]: raises [NoParent] on the root and on the empty name,
    otherwise drops the leftmost label. *)
Definition parent (self : Name) : Result Name :=
  if orb (eqb self root) (eqb self empty) then Raise NoParent
  else Ok (tl self).

(** [str(name)], escapes apart *)
Definition to_text (self : Name) : string :=
  match self with
  | [] => "@"
  | [l] => if String.eqb l "" then "." else l
  | _ => PyStr.join "." self
  end.

End DnsName.

(** ** resolver.py *)

(** The dictionary stored with every level of the walk. *)
Record ChainData := {
  dnskeys : option RRset;
  ds_records : option RRset
}.

Module DNSResolver.

(** One pass through the body of the loop of [walk_chain]. *)
Inductive LoopStep :=
| Continue (current : Name) (chain : list (string * ChainData))
| Break (chain : list (string * ChainData)).

(** The walk itself, over the two methods it calls through [self]. *)
Section Walk.
Variable get_dnskeys : string -> M (option RRset).
Variable get_ds_records : string -> M (option RRset).

(** The [try] block of the loop with its [except Exception: break]. An
    exception of either query leaves [chain] as it was; [chain.append]
    has already run when [current.parent()] raises. *)
Definition walk_body (current : Name) (chain : list (string * ChainData))
    (w : World) : LoopStep * World :=
  match get_dnskeys (DnsName.to_text current) w with
  | (Raise _, w1) => (Break chain, w1)
  | (Ok dnskeys, w1) =>
    match get_ds_records (DnsName.to_text current) w1 with
    | (Raise _, w2) => (Break chain, w2)
    | (Ok ds_records, w2) =>
      let chain := list_append chain
                     (DnsName.to_text current,
                      {| dnskeys := dnskeys; ds_records := ds_records |}) in
      match DnsName.parent current with
      | Raise _ => (Break chain, w2)
      | Ok parent => (Continue parent chain, w2)
      end
    end
  end.

(** [while current != dns.name.root: ...] *)
Equations? walk_loop (current : Name) (chain : list (string * ChainData))
    (w : World) : list (string * ChainData) * World
    by wf (List.length current) lt :=
  walk_loop current chain w with negb (DnsName.eqb current DnsName.root) => {
    | false => (chain, w)
    | true with inspect (walk_body current chain w) => {
      | exist _ (Break chain', w') _ => (chain', w')
      | exist _ (Continue parent chain', w') Hstep => walk_loop parent chain' w'
      }
    }.
Proof.
  unfold walk_body in Hstep.
  destruct (get_dnskeys _ w) as [[? | ?] ?]; [| discriminate].
  destruct (get_ds_records _ _) as [[? | ?] ?]; [| discriminate].
  unfold DnsName.parent in Hstep.
  destruct (orb _ _) eqn:Hroot; [discriminate |].
  injection Hstep as <- _ _.
  destruct current as [| l rest]; [discriminate Hroot | simpl; lia].
Qed.

(** [walk_chain(domain)] *)
Definition walk_chain_with (name_from_text : string -> Result Name)
    (domain : string) : M (list (string * ChainData)) :=
  let chain := [] in
  current <- lift (name_from_text domain) ;;
  fun w => let (chain, w') := walk_loop current chain w in (Ok chain, w').

End Walk.

Section Resolver.
Variable E : Env.

(** [query(domain, rdtype, dnssec=True)]; the record type is passed as
    the value [dns.rdatatype.from_text] gives for its text. *)
Definition query (domain : string) (rdtype : RdType) : M (option RRset) :=
  try_except
    (domain_name <- lift (name_from_text E domain) ;;
     answer <- resolve E domain_name rdtype ;;
     ret (match answer with
          | first :: _ => Some first
          | [] => None
          end))
    (fun _ => ret None).

Definition get_dnskeys (domain : string) : M (option RRset) := query domain DNSKEY.

Definition get_ds_records (domain : string) : M (option RRset) := query domain DS.

Definition walk_chain (domain : string) : M (list (string * ChainData)) :=
  walk_chain_with get_dnskeys get_ds_records (name_from_text E) domain.

End Resolver.
End DNSResolver.

(** ** tester.py *)

(** Sequencing of calls that may raise before any effect. *)
Definition Result_bind {A B} (r : Result A) (k : A -> Result B) : Result B :=
  match r with
  | Ok a => k a
  | Raise e => Raise e
  end.

Notation "x <~ r ;; k" := (Result_bind r (fun x => k))
  (at level 61, r at next level, right associativity).

(** Python truth of an optional record set: [None] and the empty set are false. *)
Definition truthy (rrset : option RRset) : bool :=
  match rrset with
  | Some (_ :: _) => true
  | _ => false
  end.

Definition is_not_None {A} (o : option A) : bool :=
  match o with
  | Some _ => true
  | None => false
  end.

(** Assignments to the attributes of a result. *)
Definition set_validation_time_ms (v : float) (r : ValidationResult) : ValidationResult :=
  {| domain := domain r; timestamp := timestamp r; dnssec_enabled := dnssec_enabled r;
     chain_valid := chain_valid r; validation_time_ms := v;
     chain_of_trust := chain_of_trust r; ksk_list := ksk_list r; zsk_list := zsk_list r;
     security_issues := security_issues r; total_rrsets_signed := total_rrsets_signed r;
     expired_signatures := expired_signatures r; warnings := warnings r;
     nameservers := nameservers r; resolver_used := resolver_used r |}.

Definition set_chain_valid (v : bool) (r : ValidationResult) : ValidationResult :=
  {| domain := domain r; timestamp := timestamp r; dnssec_enabled := dnssec_enabled r;
     chain_valid := v; validation_time_ms := validation_time_ms r;
     chain_of_trust := chain_of_trust r; ksk_list := ksk_list r; zsk_list := zsk_list r;
     security_issues := security_issues r; total_rrsets_signed := total_rrsets_signed r;
     expired_signatures := expired_signatures r; warnings := warnings r;
     nameservers := nameservers r; resolver_used := resolver_used r |}.

Definition set_chain_of_trust (v : list ChainElement) (r : ValidationResult)
    : ValidationResult :=
  {| domain := domain r; timestamp := timestamp r; dnssec_enabled := dnssec_enabled r;
     chain_valid := chain_valid r; validation_time_ms := validation_time_ms r;
     chain_of_trust := v; ksk_list := ksk_list r; zsk_list := zsk_list r;
     security_issues := security_issues r; total_rrsets_signed := total_rrsets_signed r;
     expired_signatures := expired_signatures r; warnings := warnings r;
     nameservers := nameservers r; resolver_used := resolver_used r |}.

Definition set_ksk_list (v : list KeyInfo) (r : ValidationResult) : ValidationResult :=
  {| domain := domain r; timestamp := timestamp r; dnssec_enabled := dnssec_enabled r;
     chain_valid := chain_valid r; validation_time_ms := validation_time_ms r;
     chain_of_trust := chain_of_trust r; ksk_list := v; zsk_list := zsk_list r;
     security_issues := security_issues r; total_rrsets_signed := total_rrsets_signed r;
     expired_signatures := expired_signatures r; warnings := warnings r;
     nameservers := nameservers r; resolver_used := resolver_used r |}.

Definition set_zsk_list (v : list KeyInfo) (r : ValidationResult) : ValidationResult :=
  {| domain := domain r; timestamp := timestamp r; dnssec_enabled := dnssec_enabled r;
     chain_valid := chain_valid r; validation_time_ms := validation_time_ms r;
     chain_of_trust := chain_of_trust r; ksk_list := ksk_list r; zsk_list := v;
     security_issues := security_issues r; total_rrsets_signed := total_rrsets_signed r;
     expired_signatures := expired_signatures r; warnings := warnings r;
     nameservers := nameservers r; resolver_used := resolver_used r |}.

Definition set_security_issues (v : list SecurityIssue) (r : ValidationResult)
    : ValidationResult :=
  {| domain := domain r; timestamp := timestamp r; dnssec_enabled := dnssec_enabled r;
     chain_valid := chain_valid r; validation_time_ms := validation_time_ms r;
     chain_of_trust := chain_of_trust r; ksk_list := ksk_list r; zsk_list := zsk_list r;
     security_issues := v; total_rrsets_signed := total_rrsets_signed r;
     expired_signatures := expired_signatures r; warnings := warnings r;
     nameservers := nameservers r; resolver_used := resolver_used r |}.

(** Statements that act on the [result] object under construction: what
    they have assigned stays assigned when a later statement raises. *)
Definition OnResult (A : Type) : Type :=
  ValidationResult -> World -> Result A * ValidationResult * World.

Definition on_ret {A} (a : A) : OnResult A := fun r w => (Ok a, r, w).

Definition on_bind {A B} (c : OnResult A) (k : A -> OnResult B) : OnResult B :=
  fun r w => match c r w with
             | (Ok a, r', w') => k a r' w'
             | (Raise e, r', w') => (Raise e, r', w')
             end.

Notation "x <-- c ;; k" := (on_bind c (fun x => k))
  (at level 61, c at next level, right associativity).

(** A call that does not touch [result] *)
Definition call {A} (c : M A) : OnResult A :=
  fun r w => let (a, w') := c w in (a, r, w').

(** [result.attr = ...], [result.attr.extend(...)] *)
Definition assign (f : ValidationResult -> ValidationResult) : OnResult unit :=
  fun r w => (Ok tt, f r, w).

(** [for x in l: body x] *)
Fixpoint for_each {A} (l : list A) (body : A -> OnResult unit) : OnResult unit :=
  match l with
  | [] => on_ret tt
  | x :: rest => _ <-- body x ;; for_each rest body
  end.

Module DNSSECTester.
Import DNSSECValidator.

Section Tester.
Variable E : Env.
Variable config : DNSSECConfig.

(** [KeyInfo(keytag=..., algorithm=..., bits=..., flags=..., is_ksk=...,
    is_zsk=True, public_key=...)], the arguments evaluated in this order.
    [hasattr(rdata, 'key')] holds of every [Rdata]. *)
Definition parse_key (rdata : Rdata) : Result KeyInfo :=
  keytag <~ key_id E rdata ;;
  algorithm <~ algorithm_to_text E (rd_algorithm rdata) ;;
  bits <~ key_bit_length E (rd_key rdata) ;;
  public_key <~ key_hex E (rd_key rdata) ;;
  Ok {| keytag := keytag;
        algorithm := algorithm;
        bits := bits;
        flags := rd_flags rdata;
        is_ksk := negb (Z.land (rd_flags rdata) 1 =? 0);
        is_zsk := true;
        valid_from := None;
        valid_until := None;
        public_key := Some public_key |}.

(** [for rdata in dnskeys: ...; keys.append(key_info)] *)
Fixpoint parse_loop (dnskeys : list Rdata) (keys : list KeyInfo) : Result (list KeyInfo) :=
  match dnskeys with
  | [] => Ok keys
  | rdata :: rest =>
    key_info <~ parse_key rdata ;;
    parse_loop rest (list_append keys key_info)
  end.

Definition _parse_keys (dnskeys : option RRset) : Result (list KeyInfo) :=
  let keys := [] in
  if negb (truthy dnskeys) then Ok keys
  else match dnskeys with
       | Some records => parse_loop records keys
       | None => Ok keys
       end.

(** [for domain_name, data in chain_data: ...] inside the [try] of
    [_walk_and_validate_chain]: an exception of [_parse_keys] ends the
    loop with the elements appended so far. *)
Fixpoint validate_loop (chain_data : list (string * ChainData))
    (chain : list ChainElement) : list ChainElement :=
  match chain_data with
  | [] => chain
  | (domain_name, data) :: rest =>
    let element :=
      {| name := domain_name;
         rdtype := if truthy (dnskeys data) then "DNSKEY" else "DS";
         valid := is_not_None (dnskeys data);
         keys := []; signatures := []; issues := []; element_details := [] |} in
    if truthy (dnskeys data) then
      match _parse_keys (dnskeys data) with
      | Raise _ => chain
      | Ok parsed =>
        let element :=
          {| name := name element; rdtype := rdtype element; valid := valid element;
             keys := parsed; signatures := signatures element;
             issues := issues element; element_details := element_details element |} in
        validate_loop rest (list_append chain element)
      end
    else validate_loop rest (list_append chain element)
  end.

Definition _walk_and_validate_chain (domain : string) : M (list ChainElement) :=
  let chain := [] in
  try_except
    (chain_data <- DNSResolver.walk_chain E domain ;;
     ret (validate_loop chain_data chain))
    (fun _ => ret chain).

Definition extend_security_issues (l : list SecurityIssue) (r : ValidationResult)
    : ValidationResult :=
  set_security_issues (list_extend (security_issues r) l) r.

(** The [try] block of [test_domain]. *)
Definition validation_block (domain : string) (dnskeys : option RRset) : OnResult unit :=
  keys_list <-- call (lift (_parse_keys dnskeys)) ;;
  _ <-- assign (set_ksk_list (filter is_ksk keys_list)) ;;
  _ <-- assign (set_zsk_list (filter is_zsk keys_list)) ;;
  _ <-- (if check_algorithms config then
           for_each keys_list (fun key =>
             found <-- call (check_algorithm_strength E (AlgName (algorithm key))) ;;
             assign (extend_security_issues found))
         else on_ret tt) ;;
  _ <-- (if check_key_strength_enabled config then
           for_each keys_list (fun key =>
             found <-- call (check_key_strength E (AlgName (algorithm key)) (bits key)) ;;
             assign (extend_security_issues found))
         else on_ret tt) ;;
  found <-- call (check_key_rollover E keys_list) ;;
  _ <-- assign (extend_security_issues found) ;;
  if follow_chain config then
    chain <-- call (_walk_and_validate_chain domain) ;;
    _ <-- assign (set_chain_of_trust chain) ;;
    fun r => assign (set_chain_valid (forallb valid (chain_of_trust r))) r
  else on_ret tt.

(** [try: ... except Exception as e: result.security_issues.append(issue)] *)
Definition validation_try (domain : string) (dnskeys : option RRset)
    (result : ValidationResult) : M ValidationResult :=
  fun w => match validation_block domain dnskeys result w with
           | (Ok _, result, w') => (Ok result, w')
           | (Raise e, result, w') =>
             (issue <- new_issue E CHAIN_INVALID HIGH
                         ("Validation error: " ++ exn_str e) None None ;;
              ret (set_security_issues (list_append (security_issues result) issue)
                     result)) w'
           end.

Definition test_domain (domain : string) : M ValidationResult :=
  start_time <- time_time E ;;
  dnskeys <- DNSResolver.get_dnskeys E domain ;;
  let dnssec_enabled := is_not_None dnskeys in
  now <- utcnow E ;;
  let result :=
    {| domain := domain; timestamp := now; dnssec_enabled := dnssec_enabled;
       chain_valid := false; validation_time_ms := 0%float;
       chain_of_trust := []; ksk_list := []; zsk_list := []; security_issues := [];
       total_rrsets_signed := 0; expired_signatures := 0; warnings := 0;
       nameservers := []; resolver_used := None |} in
  if negb dnssec_enabled then
    end_time <- time_time E ;;
    ret (set_validation_time_ms (PrimFloat.mul (PrimFloat.sub end_time start_time) 1000)
           result)
  else
    result <- validation_try domain dnskeys result ;;
    end_time <- time_time E ;;
    ret (set_validation_time_ms (PrimFloat.mul (PrimFloat.sub end_time start_time) 1000)
           result).



End Tester.
End DNSSECTester.

(** ** analyzer.py *)

Module DNSSECAnalyzer.

Section Analyzer.
Variable E : Env.

(** [sum(1 for k in keys if p(k))] *)
Definition count_if {A} (p : A -> bool) (l : list A) : Z :=
  Z.of_nat (List.length (filter p l)).

Definition _analyze_keys (keys : list KeyInfo) : M (list SecurityIssue) :=
  let issues := [] in
  let ksk_count := count_if is_ksk keys in
  let zsk_count := count_if is_zsk keys in
  if ksk_count =? 1 then
    issue <- new_issue E CONFIGURATION_ISSUE MEDIUM
               "Only one KSK found; redundancy recommended" None
               (Some "Consider adding a second KSK for key rollover scenarios") ;;
    ret (list_append issues issue)
  else ret issues.

Fixpoint _analyze_chain_loop (chain : list ChainElement) (issues : list SecurityIssue)
    : M (list SecurityIssue) :=
  match chain with
  | [] => ret issues
  | element :: rest =>
    if negb (valid element) then
      issue <- new_issue E CHAIN_INVALID HIGH
                 ("Chain element " ++ name element ++ " validation failed") None
                 (Some ("Check DNSSEC configuration for " ++ name element)) ;;
      _analyze_chain_loop rest (list_append issues issue)
    else _analyze_chain_loop rest issues
  end.

Definition _analyze_chain (chain : list ChainElement) : M (list SecurityIssue) :=
  _analyze_chain_loop chain [].

Definition is_empty {A} (l : list A) : bool :=
  match l with
  | [] => true
  | _ :: _ => false
  end.

Definition analyze_result (result : ValidationResult) : M (list SecurityIssue) :=
  let issues := [] in
  if negb (dnssec_enabled result) then
    issue <- new_issue E CONFIGURATION_ISSUE HIGH
               "DNSSEC is not enabled for this domain" None
               (Some "Enable DNSSEC on the authoritative nameserver") ;;
    ret (list_append issues issue)
  else
    issues <- (if negb (chain_valid result) then
                 issue <- new_issue E CHAIN_INVALID CRITICAL
                            "DNSSEC chain of trust validation failed" None
                            (Some "Check DNSSEC configuration and signatures") ;;
                 ret (list_append issues issue)
               else ret issues) ;;
    issues <- (if is_empty (ksk_list result) then
                 issue <- new_issue E KEY_WEAK HIGH
                            "No Key Signing Key (KSK) found" None
                            (Some "Add a KSK to the zone") ;;
                 ret (list_append issues issue)
               else ret issues) ;;
    issues <- (if is_empty (zsk_list result) then
                 issue <- new_issue E KEY_WEAK HIGH
                            "No Zone Signing Key (ZSK) found" None
                            (Some "Add a ZSK to the zone") ;;
                 ret (list_append issues issue)
               else ret issues) ;;
    let all_keys := (ksk_list result ++ zsk_list result)%list in
    issues <- (if negb (is_empty all_keys) then
                 found <- _analyze_keys all_keys ;;
                 ret (list_extend issues found)
               else ret issues) ;;
    issues <- (if negb (is_empty (chain_of_trust result)) then
                 found <- _analyze_chain (chain_of_trust result) ;;
                 ret (list_extend issues found)
               else ret issues) ;;
    ret issues.

End Analyzer.

(** [generate_recommendations(result)] *)
Definition generate_recommendations (result : ValidationResult) : list string :=
  let recommendations := [] in
  let recommendations :=
    if negb (dnssec_enabled result) then
      list_append recommendations
        "Enable DNSSEC to protect against DNS spoofing and cache poisoning"
    else recommendations in
  let recommendations :=
    if negb (is_empty (security_issues result)) then
      let critical_issues :=
        filter (fun i => Severity_eqb (severity i) CRITICAL) (security_issues result) in
      if negb (is_empty critical_issues) then
        list_append recommendations
          ("Address " ++ PyStr.of_int (Z.of_nat (List.length critical_issues))
             ++ " critical security issues immediately")
      else recommendations
    else recommendations in
  let recommendations :=
    if orb (negb (is_empty (ksk_list result))) (negb (is_empty (zsk_list result))) then
      list_append recommendations "Plan for periodic key rollover every 1-2 years"
    else recommendations in
  list_append recommendations
    "Monitor DNSSEC validation status regularly using this tool".
End DNSSECAnalyzer.

(** ** utils.py *)

Module Utils.

(** The dictionary of [get_algorithm_name], in the order of the source. *)
Definition algorithms : list (Z * string) :=
  [(1, "RSAMD5"); (3, "DSA"); (5, "RSASHA1"); (6, "DSA-NSEC3-SHA1");
   (7, "RSASHA1-NSEC3-SHA1"); (8, "RSASHA256"); (10, "RSASHA512");
   (12, "ECC-GOST"); (13, "ECDSAP256SHA256"); (14, "ECDSAP384SHA384");
   (15, "ED25519"); (16, "ED448")].

(** [d.get(key, default)] *)
Fixpoint dict_get (d : list (Z * string)) (key : Z) (default : string) : string :=
  match d with
  | [] => default
  | (k, v) :: rest => if k =? key then v else dict_get rest key default
  end.

Definition get_algorithm_name (algo_num : Z) : string :=
  dict_get algorithms algo_num ("UNKNOWN(" ++ PyStr.of_int algo_num ++ ")").

(** [is_dnssec_enabled(dnskeys)] *)
Definition is_dnssec_enabled (dnskeys : option RRset) : bool :=
  match dnskeys with
  | Some records => 0 <? Z.of_nat (List.length records)
  | None => false
  end.

End Utils.

(** ** reporters/json_reporter.py *)

Module JSONReporter.

(** The dictionary [data['summary']] that [generate] builds. *)
Record Summary := {
  total_domains : Z;
  secure_domains : Z;
  domains_with_warnings : Z;
  vulnerable_domains : Z;
  no_dnssec : Z
}.

(** [sum(1 for r in results if r.overall_status == status)] *)
Definition count_status (status : string) (results : list ValidationResult) : Z :=
  Z.of_nat (List.length (filter (fun r => String.eqb (overall_status r) status) results)).

Definition summary (results : list ValidationResult) : Summary :=
  {| total_domains := Z.of_nat (List.length results);
     secure_domains := count_status "secure" results;
     domains_with_warnings := count_status "warnings" results;
     vulnerable_domains := count_status "vulnerable" results;
     no_dnssec := count_status "no_dnssec" results |}.

End JSONReporter.

(** ** Sample environments *)

Module Samples.

(** A name parser for plain dotted text: the labels between the dots,
    made absolute. *)
Fixpoint split_labels (s : string) (label : string) : list string :=
  match s with
  | EmptyString => if String.eqb label "" then [""] else [label; ""]
  | String "." rest => label :: split_labels rest ""
  | String c rest => split_labels rest (label ++ String c EmptyString)
  end.

Definition plain_from_text (s : string) : Result Name :=
  if orb (String.eqb s "") (String.eqb s ".") then Ok DnsName.root
  else Ok (split_labels s "").

Definition one_key : Rdata := {| rd_flags := 257; rd_algorithm := 13; rd_key := "k" |}.

(** tester.py as it stands: the module never binds the name [dns], so
    each of [dns.dnssec.key_id(...)] and [dns.dnssec.AlgorithmType...]
    raises [NameError]; [bytes] has no [bit_length]. *)
Definition NameError : exn := Exn "NameError" "name 'dns' is not defined".
Definition AttributeError : exn :=
  Exn "AttributeError" "'bytes' object has no attribute 'bit_length'".
Definition Timeout : exn := Exn "LifetimeTimeout" "The resolution lifetime expired.".

(** A clock that advances one second per reading, a network on which
    every name but [b.example.] answers its DNSKEY query with one key
    and on which queries for [b.example.] time out. *)
Definition as_written : Env := {|
  utcnow_at := fun n => 1700000000000000 + Z.of_nat n * 1000000;
  time_at := fun n => PrimFloat.of_uint63 (Uint63.of_Z (Z.of_nat n));
  resolve_at := fun _ n t =>
    if DnsName.eqb n ["b"; "example"; ""] then Raise Timeout
    else match t with
         | DNSKEY => Ok [[one_key]]
         | DS => Ok []
         end;
  name_from_text := plain_from_text;
  key_id := fun _ => Raise NameError;
  algorithm_to_text := fun _ => Raise NameError;
  key_bit_length := fun _ => Raise AttributeError;
  key_hex := fun _ => Ok "6b";
  isoformat := fun t => PyStr.of_int t;
  set_order := fun l => l
|}.

(** A network on which every DNSKEY query is answered with an empty
    record set. *)
Definition empty_answer : Env := {|
  utcnow_at := utcnow_at as_written;
  time_at := time_at as_written;
  resolve_at := fun _ _ _ => Ok [[]];
  name_from_text := plain_from_text;
  key_id := key_id as_written;
  algorithm_to_text := algorithm_to_text as_written;
  key_bit_length := key_bit_length as_written;
  key_hex := key_hex as_written;
  isoformat := isoformat as_written;
  set_order := fun l => l
|}.

(** A network on which only the zone [example.] answers its DNSKEY
    query with a key: [a.example.] answers with an empty record set and
    every other answer section is empty. *)
Definition signed_parent : Env := {|
  utcnow_at := utcnow_at as_written;
  time_at := time_at as_written;
  resolve_at := fun _ n t =>
    match t with
    | DNSKEY =>
      if DnsName.eqb n ["example"; ""] then Ok [[one_key]]
      else if DnsName.eqb n ["a"; "example"; ""] then Ok [[]]
      else Ok []
    | DS => Ok []
    end;
  name_from_text := plain_from_text;
  key_id := key_id as_written;
  algorithm_to_text := algorithm_to_text as_written;
  key_bit_length := key_bit_length as_written;
  key_hex := key_hex as_written;
  isoformat := isoformat as_written;
  set_order := fun l => l
|}.

End Samples.

(** ** Vocabulary of the statements *)

(** A computation returns [a] from the world [w]. *)
Definition returns {A} (c : M A) (w : World) (a : A) : Prop := fst (c w) = Ok a.

Definition severities (l : list SecurityIssue) : list Severity := map severity l.

(** An issue with its creation time blanked. *)
Definition without_timestamp (i : SecurityIssue) : SecurityIssue :=
  {| type := type i; severity := severity i; message := message i;
     details := details i; remediation := remediation i;
     affected_rrset := affected_rrset i; issue_timestamp := 0 |}.

(** A computation that never raises and whose only contact with the
    outside is to read the wall clock: no query, no timer. *)
Definition clock_only {A} (c : M A) : Prop :=
  forall w,
    (exists a, returns c w a) /\
    queries (snd (c w)) = queries w /\
    timer_reads (snd (c w)) = timer_reads w /\
    (clock_reads w <= clock_reads (snd (c w)))%nat.

(** What such a computation returns is fixed by the position of the clock. *)
Definition clock_determined {A} (c : M A) : Prop :=
  forall w1 w2,
    clock_reads w1 = clock_reads w2 ->
    fst (c w1) = fst (c w2) /\ clock_reads (snd (c w1)) = clock_reads (snd (c w2)).

Definition clock_bound {A} (c : M A) : Prop := clock_only c /\ clock_determined c.

(** What the leaf query of [test_domain] gives: it follows the first
    reading of the timer. *)
Definition leaf_keys (E : Env) (domain : string) (w : World) : Result (option RRset) :=
  fst (DNSResolver.get_dnskeys E domain (snd (time_time E w))).

(** A statement on the result that completes, none of its calls
    raising, and takes a result [r] to a result [r'] with [Q r r']. *)
Definition completes {A} (c : OnResult A)
    (Q : ValidationResult -> ValidationResult -> Prop) : Prop :=
  forall r w, exists a r' w', c r w = (Ok a, r', w') /\ Q r r'.




(** There is an issue of the given severity. *)
Definition has_severity (s : Severity) (r : ValidationResult) : Prop :=
  exists i, In i (security_issues r) /\ severity i = s.

(** The names the walk visits from an absolute name, leaf first: the
    name itself and its parents down to the top-level label. *)
Fixpoint ancestors (labels : list string) : list Name :=
  match labels with
  | [] => []
  | l :: rest => ((l :: rest) ++ [""])%list :: ancestors rest
  end.

(** A computation that sends at most [n] queries. *)
Definition sends_at_most {A} (n : nat) (c : M A) : Prop :=
  forall w, (queries (snd (c w)) <= queries w + n)%nat.

(** A statement on the result that sends at most [n] queries. *)
Definition on_sends_at_most {A} (n : nat) (c : OnResult A) : Prop :=
  forall r w, (queries (snd (c r w)) <= queries w + n)%nat.


(** The kind and the severity of each issue of a list, in order. *)
Definition kinds (l : list SecurityIssue) : list (IssueType * Severity) :=
  map (fun i => (type i, severity i)) l.



(** tester.py never imports [dns]: in the module as it stands the name
    is unbound, and [dns.dnssec.key_id(rdata)], the first argument
    evaluated in the [KeyInfo] call of [_parse_keys], raises
    [NameError]. *)
Definition dns_unbound (E : Env) : Prop :=
  forall rdata, key_id E rdata = Raise Samples.NameError.

(** What a query comes to: the first record set of the answer section,
    and nothing when the text of the name does not parse, when the
    resolver raises and when the answer section is empty. *)
Definition answer_of (E : Env) (text : string) (rdtype : RdType) (w : World)
    : option RRset :=
  match name_from_text E text with
  | Ok n =>
    match resolve_at E (queries w) n rdtype with
    | Ok (first :: _) => Some first
    | Ok [] => None
    | Raise _ => None
    end
  | Raise _ => None
  end.

(** The world after a query: one more call of the resolver, unless the
    text of the name did not parse. *)
Definition after_query (E : Env) (text : string) (w : World) : World :=
  match name_from_text E text with
  | Ok _ => {| clock_reads := clock_reads w; timer_reads := timer_reads w;
               queries := S (queries w) |}
  | Raise _ => w
  end.

(** The walk told level by level: for each name, leaf first, the answer
    to its DNSKEY query and then to its DS query. A level whose queries
    fail is a level with absent answers, and the levels after it follow. *)
Fixpoint walk_levels (E : Env) (names : list Name) (w : World)
    : list (string * ChainData) * World :=
  match names with
  | [] => ([], w)
  | current :: rest =>
    let text := DnsName.to_text current in
    let w1 := after_query E text w in
    let w2 := after_query E text w1 in
    let (levels, w') := walk_levels E rest w2 in
    ((text, {| dnskeys := answer_of E text DNSKEY w;
               ds_records := answer_of E text DS w1 |}) :: levels, w')
  end.

(** The element that [_walk_and_validate_chain] builds of one level of
    the walk: named after the level, of record type DNSKEY when the key
    set is non-empty and DS otherwise, valid when the key answer is
    not [None], with the keys parsed from a non-empty key set. *)
Definition element_built (E : Env) (level : string * ChainData)
    (element : ChainElement) : Prop :=
  exists parsed,
    (if truthy (dnskeys (snd level))
     then DNSSECTester._parse_keys E (dnskeys (snd level)) = Ok parsed
     else parsed = []) /\
    element
    = {| name := fst level;
         rdtype := if truthy (dnskeys (snd level)) then "DNSKEY" else "DS";
         valid := is_not_None (dnskeys (snd level));
         keys := parsed; signatures := []; issues := []; element_details := [] |}.

(** * Properties *)

(** ** The monad *)

Lemma clock_bound_ret {A} (a : A) : clock_bound (ret a).
Proof.
  split.
  - intro w. unfold returns, ret. simpl. repeat split; eauto.
  - intros w1 w2 H. simpl. auto.
Qed.

Lemma clock_bound_bind {A B} (c : M A) (k : A -> M B) :
  clock_bound c -> (forall a, clock_bound (k a)) -> clock_bound (bind c k).
Proof.
  intros [Hc Hd] Hk. split.
  - intro w. unfold returns, bind.
    destruct (Hc w) as [[a Ha] [Hq [Ht Hl]]]. unfold returns in Ha.
    destruct (c w) as [r w'] eqn:Hcw. simpl in *. subst r.
    destruct (Hk a) as [Hka _]. destruct (Hka w') as [[b Hb] [Hq' [Ht' Hl']]].
    unfold returns in Hb. repeat split.
    + exists b. exact Hb.
    + congruence.
    + congruence.
    + lia.
  - intros w1 w2 H. unfold bind.
    destruct (Hd w1 w2 H) as [Hr Hw].
    destruct (c w1) as [r1 w1'], (c w2) as [r2 w2']. simpl in *. subst r2.
    destruct r1 as [a | e].
    + destruct (Hk a) as [_ Hkd]. apply Hkd. exact Hw.
    + simpl. auto.
Qed.

Lemma clock_bound_utcnow (E : Env) : clock_bound (utcnow E).
Proof.
  split.
  - intro w. unfold returns, utcnow. simpl. repeat split; eauto.
  - intros w1 w2 H. unfold utcnow. simpl. rewrite H. auto.
Qed.

Lemma clock_bound_new_issue (E : Env) ty sev msg det rem :
  clock_bound (new_issue E ty sev msg det rem).
Proof.
  unfold new_issue. apply clock_bound_bind.
  - apply clock_bound_utcnow.
  - intro. apply clock_bound_ret.
Qed.

Create HintDb clock.
#[local] Hint Resolve clock_bound_ret clock_bound_utcnow clock_bound_new_issue : clock.

Ltac clock_bound_step :=
  match goal with
  | |- clock_bound (bind _ _) => apply clock_bound_bind; [| intro]
  | |- clock_bound (if ?b then _ else _) => destruct b
  | |- clock_bound (match ?x with _ => _ end) => destruct x
  | |- clock_bound _ => solve [auto with clock]
  end.

Lemma new_issue_returns (E : Env) ty sev msg det rem w :
  new_issue E ty sev msg det rem w =
  (Ok {| type := ty; severity := sev; message := msg; details := det;
         remediation := rem; affected_rrset := None;
         issue_timestamp := utcnow_at E (clock_reads w) |},
   {| clock_reads := S (clock_reads w); timer_reads := timer_reads w;
      queries := queries w |}).
Proof. reflexivity. Qed.

(** ** Policy checks (validator.py) *)

Section PolicyChecks.
Import DNSSECValidator.
Variable E : Env.

Ltac run_check :=
  repeat (rewrite ?new_issue_returns; unfold bind, ret, returns; simpl fst; simpl snd).

(** Deprecated names give one CRITICAL issue. *)
Lemma check_algorithm_strength_deprecated name w :
  In name DEPRECATED_ALGORITHMS ->
  exists issue,
    returns (check_algorithm_strength E (AlgName name)) w [issue] /\
    severity issue = CRITICAL /\ type issue = ALGORITHM_WEAK.
Proof.
  intro H. simpl in H.
  destruct H as [<- | [<- | [<- | []]]];
    (eexists; split; [reflexivity | split; reflexivity]).
Qed.

(** Names that are not recommended and not deprecated give one MEDIUM issue. *)
Lemma check_algorithm_strength_not_recommended name w :
  In name NOT_RECOMMENDED -> ~ In name DEPRECATED_ALGORITHMS ->
  exists issue,
    returns (check_algorithm_strength E (AlgName name)) w [issue] /\
    severity issue = MEDIUM /\ type issue = ALGORITHM_WEAK.
Proof.
  intros H _. simpl in H.
  destruct H as [<- | [<- | [<- | []]]];
    (eexists; split; [reflexivity | split; reflexivity]).
Qed.

(** The recommended names other than ECDSAP256SHA256 give no issue. *)
Lemma check_algorithm_strength_recommended_others name w :
  In name RECOMMENDED_ALGORITHMS -> name <> "ECDSAP256SHA256" ->
  returns (check_algorithm_strength E (AlgName name)) w [].
Proof.
  intros H Hne. simpl in H.
  destruct H as [<- | [<- | [<- | [<- | []]]]]; try reflexivity.
  contradiction Hne. reflexivity.
Qed.

(** C1. ECDSAP256SHA256 is a member of [RECOMMENDED_ALGORITHMS] and of
    [NOT_RECOMMENDED]: for this recommended name
    [check_algorithm_strength] returns one issue, of severity MEDIUM,
    and not the empty list. *)
Theorem check_algorithm_strength_ecdsap256 :
  forall w,
    In "ECDSAP256SHA256" RECOMMENDED_ALGORITHMS /\
    exists issue,
      returns (check_algorithm_strength E (AlgName "ECDSAP256SHA256")) w [issue] /\
      severity issue = MEDIUM /\
      message issue = "Algorithm ECDSAP256SHA256 is not recommended per RFC 8624".
Proof.
  intro w. split.
  - simpl. auto.
  - eexists. split; [reflexivity | split; reflexivity].
Qed.

(** C5, amended. The family is found by substring on the upper-cased
    name. A name containing RSA: below 2048 bits one CRITICAL issue, from
    2048 and below 4096 one MEDIUM issue, from 4096 none. A name
    containing ECDSA and not RSA: below 256 bits one CRITICAL issue, from
    256 none. Any other name, Ed25519 and Ed448 among them: no issue at
    any length. *)
Theorem check_key_strength_by_family :
  forall (algorithm : AlgorithmArg) (bits : Z) (w : World),
    let algo_str := PyStr.upper (py_str algorithm) in
    exists found,
      returns (check_key_strength E algorithm bits) w found /\
      (PyStr.contains "RSA" algo_str = true -> bits < 2048 ->
         severities found = [CRITICAL]) /\
      (PyStr.contains "RSA" algo_str = true -> 2048 <= bits < 4096 ->
         severities found = [MEDIUM]) /\
      (PyStr.contains "RSA" algo_str = true -> 4096 <= bits -> found = []) /\
      (PyStr.contains "RSA" algo_str = false ->
       PyStr.contains "ECDSA" algo_str = true -> bits < 256 ->
         severities found = [CRITICAL]) /\
      (PyStr.contains "RSA" algo_str = false ->
       PyStr.contains "ECDSA" algo_str = true -> 256 <= bits -> found = []) /\
      (PyStr.contains "RSA" algo_str = false ->
       PyStr.contains "ECDSA" algo_str = false -> found = []) /\
      (In algo_str ["ED25519"; "ED448"] -> found = []).
Proof.
  intros algorithm bits w algo_str.
  assert (Hed : In algo_str ["ED25519"; "ED448"] ->
                PyStr.contains "RSA" algo_str = false /\
                PyStr.contains "ECDSA" algo_str = false).
  { intros [<- | [<- | []]]; split; reflexivity. }
  unfold check_key_strength. fold algo_str.
  destruct (PyStr.contains "RSA" algo_str) eqn:Hrsa;
    [| destruct (PyStr.contains "ECDSA" algo_str) eqn:Hec].
  - destruct (bits <? 2048) eqn:H1; [| destruct (bits <? 4096) eqn:H2];
      run_check; eexists; (split; [reflexivity |]);
      repeat split; intros; try reflexivity; try discriminate; try lia.
    all: destruct (Hed H); discriminate.
  - destruct (bits <? 256) eqn:H1;
      run_check; eexists; (split; [reflexivity |]);
      repeat split; intros; try reflexivity; try discriminate; try lia.
    all: destruct (Hed H); discriminate.
  - run_check. eexists. split; [reflexivity |].
    repeat split; intros; try reflexivity; try discriminate.
Qed.

(** C6. With [days] the whole days from now to the expiration, rounded
    down: below 0 one CRITICAL issue, from 0 and below 7 one HIGH issue,
    from 7 and below 30 one MEDIUM issue, from 30 none. Day 7 is MEDIUM and
    day 30 is free of issues. *)
Theorem check_signature_expiration_buckets :
  forall (seconds : Z) (w : World),
    let now := utcnow_at E (clock_reads w) in
    let days := timedelta_days (utcfromtimestamp seconds) now in
    microseconds_per_day * days <= utcfromtimestamp seconds - now
      < microseconds_per_day * (days + 1) /\
    exists found,
      returns (check_signature_expiration E {| expiration := Some seconds |}) w found /\
      (days < 0 -> severities found = [CRITICAL]) /\
      (0 <= days < 7 -> severities found = [HIGH]) /\
      (7 <= days < 30 -> severities found = [MEDIUM]) /\
      (30 <= days -> found = []) /\
      (days = 7 -> severities found = [MEDIUM]) /\
      (days = 30 -> found = []).
Proof.
  intros seconds w now days. split.
  - unfold days, timedelta_days, microseconds_per_day.
    pose proof (Z.mul_div_le (utcfromtimestamp seconds - now) 86400000000 eq_refl).
    pose proof (Z.mul_succ_div_gt (utcfromtimestamp seconds - now) 86400000000 eq_refl).
    lia.
  - unfold check_signature_expiration, returns.
    cbv beta iota zeta delta [expiration bind utcnow].
    change (utcnow_at E (clock_reads w)) with now.
    change (timedelta_days (utcfromtimestamp seconds) now) with days.
    clearbody days. clearbody now.
    destruct (days <? 0) eqn:H0; [| destruct (days <? 7) eqn:H7;
                                    [| destruct (days <? 30) eqn:H30]];
      run_check; eexists; (split; [reflexivity |]);
      repeat split; intros; try reflexivity; lia.
Qed.

End PolicyChecks.

(** ** Overall status (models.py) *)

Lemma existsb_severity (s : Severity) (r : ValidationResult) :
  existsb (fun i => Severity_eqb (severity i) s) (security_issues r) = true
  <-> has_severity s r.
Proof.
  unfold has_severity. rewrite existsb_exists. split.
  - intros [i [Hin Heq]]. exists i. split; [assumption |].
    destruct (severity i), s; simpl in Heq; congruence.
  - intros [i [Hin Heq]]. exists i. split; [assumption |].
    rewrite Heq. destruct s; reflexivity.
Qed.

(** C7. [overall_status] is [no_dnssec] whenever DNSSEC is disabled,
    whatever the issues; otherwise [critical_issues] if some issue is
    CRITICAL, else [vulnerable] if some issue is HIGH, else [warnings] if
    there is any issue, else [secure]. A result with a CRITICAL issue is
    never [secure], [warnings] or [vulnerable]. (The status values are the
    literals of the code, written with underscores.) *)
Theorem overall_status_rule :
  forall r : ValidationResult,
    (dnssec_enabled r = false -> overall_status r = "no_dnssec") /\
    (dnssec_enabled r = true -> has_severity CRITICAL r ->
       overall_status r = "critical_issues") /\
    (dnssec_enabled r = true -> ~ has_severity CRITICAL r -> has_severity HIGH r ->
       overall_status r = "vulnerable") /\
    (dnssec_enabled r = true -> ~ has_severity CRITICAL r -> ~ has_severity HIGH r ->
     security_issues r <> [] -> overall_status r = "warnings") /\
    (dnssec_enabled r = true -> security_issues r = [] ->
       overall_status r = "secure") /\
    (has_severity CRITICAL r ->
       overall_status r <> "secure" /\ overall_status r <> "warnings" /\
       overall_status r <> "vulnerable").
Proof.
  intro r. unfold overall_status.
  pose proof (existsb_severity CRITICAL r) as Hc.
  pose proof (existsb_severity HIGH r) as Hh.
  repeat apply conj.
  - intros ->. reflexivity.
  - intros -> H. apply Hc in H. simpl negb. cbv iota. rewrite H. reflexivity.
  - intros -> Hn H. simpl negb. cbv iota.
    destruct (existsb _ (security_issues r)) eqn:Ec.
    + exfalso. apply Hn, Hc. reflexivity.
    + apply Hh in H. rewrite H. reflexivity.
  - intros -> Hn1 Hn2 Hne. simpl negb. cbv iota.
    destruct (existsb _ (security_issues r)) eqn:Ec.
    + exfalso. apply Hn1, Hc. reflexivity.
    + destruct (existsb (fun i => Severity_eqb (severity i) HIGH) _) eqn:Eh.
      * exfalso. apply Hn2, Hh. reflexivity.
      * destruct (security_issues r); [contradiction | reflexivity].
  - intros -> Hnil. rewrite Hnil. reflexivity.
  - intros H. apply Hc in H.
    destruct (dnssec_enabled r); simpl negb; cbv iota;
      [rewrite H |]; repeat split; discriminate.
Qed.

(** ** Purity of the policy checks *)

Section Purity.
Import DNSSECValidator.
Variable E : Env.

Lemma check_algorithm_strength_clock_bound a :
  clock_bound (check_algorithm_strength E a).
Proof.
  unfold check_algorithm_strength. cbv zeta. repeat clock_bound_step.
Qed.

Lemma check_key_strength_clock_bound a b :
  clock_bound (check_key_strength E a b).
Proof.
  unfold check_key_strength. cbv zeta. repeat clock_bound_step.
Qed.

Lemma check_signature_expiration_clock_bound r :
  clock_bound (check_signature_expiration E r).
Proof.
  unfold check_signature_expiration. cbv zeta. repeat clock_bound_step.
Qed.

Lemma rollover_loop_clock_bound now keys :
  forall issues, clock_bound (rollover_loop E now keys issues).
Proof.
  induction keys as [| key rest IH]; intro issues; simpl.
  - apply clock_bound_ret.
  - destruct (valid_until key); [| apply IH].
    destruct (andb _ _); [| apply IH].
    apply clock_bound_bind; [apply clock_bound_new_issue | intro; apply IH].
Qed.

Lemma check_key_rollover_clock_bound keys :
  clock_bound (check_key_rollover E keys).
Proof.
  unfold check_key_rollover. cbv zeta.
  apply clock_bound_bind; [repeat clock_bound_step | intro].
  apply clock_bound_bind; [repeat clock_bound_step | intro].
  apply clock_bound_bind; [apply clock_bound_utcnow | intro].
  apply rollover_loop_clock_bound.
Qed.

Lemma check_algorithm_strength_up_to_timestamp a w1 w2 l1 l2 :
  returns (check_algorithm_strength E a) w1 l1 ->
  returns (check_algorithm_strength E a) w2 l2 ->
  map without_timestamp l1 = map without_timestamp l2.
Proof.
  unfold check_algorithm_strength, returns. cbv zeta.
  destruct (PyStr.mem _ DEPRECATED_ALGORITHMS);
    [| destruct (PyStr.mem _ NOT_RECOMMENDED)];
    unfold bind, ret; rewrite ?new_issue_returns; simpl fst;
    intros H1 H2; injection H1 as <-; injection H2 as <-; reflexivity.
Qed.

Lemma check_key_strength_up_to_timestamp a b w1 w2 l1 l2 :
  returns (check_key_strength E a b) w1 l1 ->
  returns (check_key_strength E a b) w2 l2 ->
  map without_timestamp l1 = map without_timestamp l2.
Proof.
  unfold check_key_strength, returns. cbv zeta.
  destruct (PyStr.contains "RSA" _);
    [destruct (b <? 2048); [| destruct (b <? 4096)]
    | destruct (PyStr.contains "ECDSA" _); [destruct (b <? 256) |]];
    unfold bind, ret; rewrite ?new_issue_returns; simpl fst;
    intros H1 H2; injection H1 as <-; injection H2 as <-; reflexivity.
Qed.

End Purity.

(** C9, amended. Each policy check never raises and touches the outside
    only by reading the wall clock (no query, no timer); what it returns
    is fixed by its arguments and the position of the clock. The issues
    of [check_algorithm_strength] and [check_key_strength] are equal in
    every field but the timestamp at any two positions of the clock. *)
Theorem policy_checks_depend_on_clock_only :
  forall E : Env,
    (forall a, clock_bound (DNSSECValidator.check_algorithm_strength E a)) /\
    (forall a b, clock_bound (DNSSECValidator.check_key_strength E a b)) /\
    (forall r, clock_bound (DNSSECValidator.check_signature_expiration E r)) /\
    (forall keys, clock_bound (DNSSECValidator.check_key_rollover E keys)) /\
    (forall a w1 w2 l1 l2,
        returns (DNSSECValidator.check_algorithm_strength E a) w1 l1 ->
        returns (DNSSECValidator.check_algorithm_strength E a) w2 l2 ->
        map without_timestamp l1 = map without_timestamp l2) /\
    (forall a b w1 w2 l1 l2,
        returns (DNSSECValidator.check_key_strength E a b) w1 l1 ->
        returns (DNSSECValidator.check_key_strength E a b) w2 l2 ->
        map without_timestamp l1 = map without_timestamp l2).
Proof.
  intro E. repeat apply conj.
  - apply check_algorithm_strength_clock_bound.
  - apply check_key_strength_clock_bound.
  - apply check_signature_expiration_clock_bound.
  - apply check_key_rollover_clock_bound.
  - apply check_algorithm_strength_up_to_timestamp.
  - apply check_key_strength_up_to_timestamp.
Qed.

(** C9 as stated fails: two calls of [check_algorithm_strength] with the
    same argument, one after the other, return issues that differ in
    their timestamp. *)
Lemma policy_checks_not_referentially_transparent :
  let first :=
    DNSSECValidator.check_algorithm_strength Samples.as_written
      (DNSSECValidator.AlgName "RSAMD5") initial_world in
  let second :=
    DNSSECValidator.check_algorithm_strength Samples.as_written
      (DNSSECValidator.AlgName "RSAMD5") (snd first) in
  fst first <> fst second.
Proof.
  intros first second H.
  apply (f_equal (fun r => match r with
                           | Ok [i] => issue_timestamp i
                           | _ => 0
                           end)) in H.
  vm_compute in H. discriminate H.
Qed.

(** The same argument at the same position of the clock gives the same
    list, wherever the query counter stands. *)
Lemma policy_checks_depend_on_clock_only_witness :
  fst (DNSSECValidator.check_algorithm_strength Samples.as_written
         (DNSSECValidator.AlgName "RSAMD5") initial_world)
  = fst (DNSSECValidator.check_algorithm_strength Samples.as_written
           (DNSSECValidator.AlgName "RSAMD5")
           {| clock_reads := 0; timer_reads := 4; queries := 7 |}).
Proof.
  destruct (policy_checks_depend_on_clock_only Samples.as_written) as [H _].
  destruct (H (DNSSECValidator.AlgName "RSAMD5")) as [_ Hd].
  apply (Hd initial_world {| clock_reads := 0; timer_reads := 4; queries := 7 |}).
  reflexivity.
Defined.

(** ** The chain walk (resolver.py) *)

Section ChainWalk.
Import DNSResolver.
Variable get_dnskeys : string -> M (option RRset).
Variable get_ds_records : string -> M (option RRset).

Local Abbreviation walk_body := (walk_body get_dnskeys get_ds_records).
Local Abbreviation walk_loop := (walk_loop get_dnskeys get_ds_records).

(** The loop, one iteration unrolled. *)
Lemma walk_loop_unfold current chain w :
  walk_loop current chain w =
  if negb (DnsName.eqb current DnsName.root) then
    match walk_body current chain w with
    | (Break chain', w') => (chain', w')
    | (Continue parent chain', w') => walk_loop parent chain' w'
    end
  else (chain, w).
Proof.
  rewrite walk_loop_equation_1.
  destruct (negb _); simpl; [| reflexivity].
  destruct (walk_body current chain w) as [[p c | c] w']; reflexivity.
Qed.

(** What one pass through the body can do: stop with the chain as it
    was, stop after appending one entry, or go on with the parent after
    appending one entry. *)
Lemma walk_body_cases current chain w step w' :
  walk_body current chain w = (step, w') ->
  step = Break chain \/
  (exists entry, step = Break (list_append chain entry)) \/
  (exists entry l rest,
      current = l :: rest /\ step = Continue rest (list_append chain entry)).
Proof.
  unfold DNSResolver.walk_body.
  destruct (get_dnskeys _ w) as [[dk | e] w1].
  2: { intro H. injection H as <- _. left. reflexivity. }
  destruct (get_ds_records _ w1) as [[ds | e] w2].
  2: { intro H. injection H as <- _. left. reflexivity. }
  unfold DnsName.parent.
  destruct (orb _ _) eqn:Hroot.
  - intro H. injection H as <- _. right. left. eexists. reflexivity.
  - intro H. injection H as <- _. right. right.
    destruct current as [| l rest].
    + simpl in Hroot. discriminate.
    + eexists. exists l, rest. split; reflexivity.
Qed.

Lemma length_list_append {A} (l : list A) (x : A) :
  List.length (list_append l x) = S (List.length l).
Proof. unfold list_append. rewrite length_app. simpl. lia. Qed.

(** At most one entry per label, and one more. *)
Lemma walk_loop_length current :
  forall chain w,
    (List.length (fst (walk_loop current chain w))
     <= List.length chain + List.length current + 1)%nat.
Proof.
  induction current as [| l rest IH]; intros chain w; rewrite walk_loop_unfold.
  - simpl negb. cbv iota.
    destruct (walk_body [] chain w) as [step w'] eqn:Hb.
    destruct (walk_body_cases _ _ _ _ _ Hb) as [-> | [[entry ->] | [entry [l [rest [Hc _]]]]]].
    + simpl. lia.
    + simpl fst. rewrite length_list_append. simpl. lia.
    + discriminate Hc.
  - destruct (negb _); [| simpl; lia].
    destruct (walk_body (l :: rest) chain w) as [step w'] eqn:Hb.
    destruct (walk_body_cases _ _ _ _ _ Hb) as [-> | [[entry ->] | [entry [l' [rest' [Hc ->]]]]]].
    + simpl. lia.
    + simpl fst. rewrite length_list_append. simpl. lia.
    + injection Hc as _ <-. specialize (IH (list_append chain entry) w').
      rewrite length_list_append in IH. simpl. lia.
Qed.

End ChainWalk.

(** ** The orchestrator (tester.py) *)

Section Orchestration.
Import DNSSECValidator DNSSECTester.
Variable E : Env.
Variable config : DNSSECConfig.

(** [query] absorbs every exception; it sends at most one query and
    reads neither clock nor timer. *)
Lemma query_absorbs domain rdtype w :
  exists answer w',
    DNSResolver.query E domain rdtype w = (Ok answer, w') /\
    (queries w <= queries w' <= S (queries w))%nat /\
    clock_reads w' = clock_reads w /\ timer_reads w' = timer_reads w.
Proof.
  unfold DNSResolver.query, try_except, bind, lift, resolve, ret.
  destruct (name_from_text E domain) as [n | e].
  - destruct (resolve_at E (queries w) n rdtype) as [answer | e];
      eexists; eexists; (split; [reflexivity |]); simpl; lia.
  - eexists. eexists. split; [reflexivity |]. simpl. lia.
Qed.


Lemma walk_and_validate_chain_returns domain w :
  exists chain, returns (_walk_and_validate_chain E domain) w chain.
Proof.
  unfold returns, _walk_and_validate_chain, try_except, bind, ret.
  destruct (DNSResolver.walk_chain E domain w) as [[chain_data | e] w'];
    eexists; reflexivity.
Qed.

Lemma completes_weaken {A} (c : OnResult A) (Q Q' : _ -> _ -> Prop) :
  (forall r r', Q r r' -> Q' r r') -> completes c Q -> completes c Q'.
Proof.
  intros HQ Hc r w. destruct (Hc r w) as [a [r' [w' [H1 H2]]]].
  exists a, r', w'. split; [exact H1 | apply HQ; exact H2].
Qed.













(** When the parser raises, nothing has been assigned yet. *)
Lemma validation_block_parse_error domain dnskeys e r w :
  _parse_keys E dnskeys = Raise e ->
  validation_block E config domain dnskeys r w = (Raise e, r, w).
Proof.
  intro Hp. unfold validation_block.
  unfold on_bind at 1. unfold call at 1. unfold lift. rewrite Hp. reflexivity.
Qed.

End Orchestration.

Section TestDomain.
Import DNSSECValidator DNSSECTester.
Variable E : Env.
Variable config : DNSSECConfig.

Ltac enter_test_domain :=
  unfold leaf_keys, returns, test_domain;
  cbv beta iota delta [bind time_time];
  cbn [fst snd].

(** No key material at the leaf: the result is returned at once, with
    no issue, and the only query made is the leaf query. *)
Lemma test_domain_without_keys dom w :
  leaf_keys E dom w = Ok None ->
  exists r,
    returns (test_domain E config dom) w r /\
    domain r = dom /\ dnssec_enabled r = false /\ chain_valid r = false /\
    chain_of_trust r = [] /\ security_issues r = [] /\
    queries (snd (test_domain E config dom w))
    = queries (snd (DNSResolver.get_dnskeys E dom (snd (time_time E w)))).
Proof.
  enter_test_domain.
  destruct (DNSResolver.get_dnskeys E dom _) as [[dnskeys | e] w1];
    simpl; intro H; [| discriminate].
  injection H as ->. simpl. eexists. repeat split.
Qed.




End TestDomain.

(** For a result without DNSSEC the analyzer returns one issue, a
    configuration issue of severity HIGH. *)
Lemma analyze_result_no_dnssec (E : Env) (r : ValidationResult) (w : World) :
  dnssec_enabled r = false ->
  exists issue,
    returns (DNSSECAnalyzer.analyze_result E r) w [issue] /\
    type issue = CONFIGURATION_ISSUE /\ severity issue = HIGH.
Proof.
  intro H. unfold DNSSECAnalyzer.analyze_result, returns. rewrite H.
  eexists. split; [reflexivity | split; reflexivity].
Qed.

(** C3, amended. When the leaf key query gives nothing, [test_domain]
    returns at once: DNSSEC disabled, an empty chain of trust, status
    [no_dnssec], no query after the leaf query, and an empty list of
    issues. The one configuration issue of severity HIGH is what
    [analyze_result] returns for that result; [test_domain] does not
    run the analyzer. *)
Theorem test_domain_no_dnssec :
  forall (E : Env) (config : DNSSECConfig) (dom : string) (w : World),
    leaf_keys E dom w = Ok None ->
    exists r,
      returns (DNSSECTester.test_domain E config dom) w r /\
      dnssec_enabled r = false /\ chain_of_trust r = [] /\
      security_issues r = [] /\ overall_status r = "no_dnssec" /\
      queries (snd (DNSSECTester.test_domain E config dom w))
      = queries (snd (DNSResolver.get_dnskeys E dom (snd (time_time E w)))) /\
      (queries (snd (DNSSECTester.test_domain E config dom w)) <= S (queries w))%nat /\
      forall w', exists issue,
        returns (DNSSECAnalyzer.analyze_result E r) w' [issue] /\
        type issue = CONFIGURATION_ISSUE /\ severity issue = HIGH.
Proof.
  intros E config dom w H.
  destruct (test_domain_without_keys E config dom w H)
    as [r [H1 [H2 [H3 [H4 [H5 [H6 H7]]]]]]].
  exists r. split; [exact H1 |]. split; [exact H3 |]. split; [exact H5 |].
  split; [exact H6 |]. split.
  { unfold overall_status. rewrite H3. reflexivity. }
  split; [exact H7 |]. split.
  - rewrite H7. unfold DNSResolver.get_dnskeys.
    destruct (query_absorbs E dom DNSKEY (snd (time_time E w)))
      as [answer [w1 [Hq [Hb _]]]].
    rewrite Hq. simpl in *. lia.
  - intro w'. apply analyze_result_no_dnssec. exact H3.
Qed.

Lemma test_domain_no_dnssec_witness :
  exists r,
    returns (DNSSECTester.test_domain Samples.as_written default_config "b.example")
            initial_world r /\
    dnssec_enabled r = false /\ security_issues r = [] /\
    overall_status r = "no_dnssec".
Proof.
  destruct (test_domain_no_dnssec Samples.as_written default_config "b.example"
              initial_world eq_refl)
    as [r [H1 [H2 [_ [H3 [H4 _]]]]]].
  exists r. repeat split; assumption.
Defined.

(** C3 as stated fails: the result for a domain without key material
    carries no issue at all, so not exactly one configuration issue. *)
Lemma test_domain_no_dnssec_has_no_issue :
  exists r,
    leaf_keys Samples.as_written "b.example" initial_world = Ok None /\
    returns (DNSSECTester.test_domain Samples.as_written default_config "b.example")
            initial_world r /\
    List.length (filter (fun i => Severity_eqb (severity i) HIGH) (security_issues r))
    <> 1%nat.
Proof.
  eexists. split; [reflexivity |]. split; [vm_compute; reflexivity |].
  simpl. discriminate.
Qed.




(** ** The statements at concrete inputs *)

Lemma check_key_strength_by_family_witness :
  exists found,
    returns (DNSSECValidator.check_key_strength Samples.as_written
               (DNSSECValidator.AlgName "rsasha256") 1024) initial_world found /\
    severities found = [CRITICAL].
Proof.
  destruct (check_key_strength_by_family Samples.as_written
              (DNSSECValidator.AlgName "rsasha256") 1024 initial_world)
    as [found [H1 [H2 _]]].
  exists found. split; [exact H1 |]. apply H2; [reflexivity | lia].
Defined.

Lemma check_signature_expiration_buckets_witness :
  exists found,
    returns (DNSSECValidator.check_signature_expiration Samples.as_written
               {| expiration := Some 1700604800 |}) initial_world found /\
    severities found = [MEDIUM].
Proof.
  destruct (check_signature_expiration_buckets Samples.as_written 1700604800
              initial_world) as [_ [found [H1 [_ [_ [_ [_ [H2 _]]]]]]]].
  exists found. split; [exact H1 |]. apply H2. reflexivity.
Defined.

Lemma overall_status_rule_witness :
  overall_status
    {| domain := "example.com"; timestamp := 0; dnssec_enabled := true;
       chain_valid := true; validation_time_ms := 0%float;
       chain_of_trust := []; ksk_list := []; zsk_list := [];
       security_issues :=
         [{| type := KEY_WEAK; severity := MEDIUM; message := "m"; details := None;
             remediation := None; affected_rrset := None; issue_timestamp := 0 |};
          {| type := ALGORITHM_WEAK; severity := CRITICAL; message := "c";
             details := None; remediation := None; affected_rrset := None;
             issue_timestamp := 0 |}];
       total_rrsets_signed := 0; expired_signatures := 0; warnings := 0;
       nameservers := []; resolver_used := None |}
  = "critical_issues".
Proof.
  match goal with
  | |- overall_status ?r = _ =>
    destruct (overall_status_rule r) as [_ [H _]]; apply H; [reflexivity |]
  end.
  eexists. split; [right; left; reflexivity | reflexivity].
Defined.

(** C5 as stated fails: an Ed25519 key of 128 bits draws no issue. *)
Lemma check_key_strength_ed25519_unchecked :
  returns (DNSSECValidator.check_key_strength Samples.as_written
             (DNSSECValidator.AlgName "Ed25519") 128) initial_world [] /\
  returns (DNSSECValidator.check_key_strength Samples.as_written
             (DNSSECValidator.AlgName "ED448") 128) initial_world [].
Proof. split; reflexivity. Qed.

(** With the resolver's own queries, which absorb every exception, the
    walk from an absolute name never stops early: it collects exactly
    one entry per label below the root. *)
Lemma walk_loop_exact (E : Env) (labels : list string) :
  forall chain w,
    List.length
      (fst (DNSResolver.walk_loop (DNSResolver.get_dnskeys E)
              (DNSResolver.get_ds_records E) (labels ++ [""])%list chain w))
    = (List.length chain + List.length labels)%nat.
Proof.
  induction labels as [| l rest IH]; intros chain w; rewrite walk_loop_unfold.
  - simpl. lia.
  - replace (negb _) with true.
    2: { symmetry. destruct rest; simpl; rewrite Bool.andb_false_r; reflexivity. }
    unfold DNSResolver.walk_body, DNSResolver.get_dnskeys, DNSResolver.get_ds_records.
    destruct (query_absorbs E (DnsName.to_text ((l :: rest) ++ [""])%list) DNSKEY w)
      as [dk [w1 [Hq1 _]]].
    rewrite Hq1.
    destruct (query_absorbs E (DnsName.to_text ((l :: rest) ++ [""])%list) DS w1)
      as [ds [w2 [Hq2 _]]].
    rewrite Hq2.
    unfold DnsName.parent.
    replace (orb _ _) with false.
    2: { symmetry. apply Bool.orb_false_iff. split; [| reflexivity].
         destruct rest; simpl; apply Bool.andb_false_r. }
    change (tl ((l :: rest) ++ [""])%list) with (rest ++ [""])%list.
    rewrite IH, length_list_append. simpl. lia.
Qed.

(** ** The walk over the resolver's own queries (resolver.py) *)

Section OwnWalk.
Variable E : Env.

(** [query] returns the answer and raises nothing. *)
Lemma query_is_answer text rdtype w :
  DNSResolver.query E text rdtype w
  = (Ok (answer_of E text rdtype w), after_query E text w).
Proof.
  unfold DNSResolver.query, answer_of, after_query, try_except, bind, lift, ret, resolve.
  destruct (name_from_text E text) as [n | e]; [| reflexivity].
  destruct (resolve_at E (queries w) n rdtype) as [[| first rest] | e]; reflexivity.
Qed.

Lemma length_walk_levels names :
  forall w, List.length (fst (walk_levels E names w)) = List.length names.
Proof.
  induction names as [| current rest IH]; intro w; [reflexivity |].
  cbn [walk_levels]. cbv zeta.
  match goal with
  | |- context [walk_levels E rest ?w2] =>
    specialize (IH w2); destruct (walk_levels E rest w2) as [levels w']
  end.
  simpl in *. rewrite IH. reflexivity.
Qed.

Lemma length_ancestors labels : List.length (ancestors labels) = List.length labels.
Proof. induction labels as [| l rest IH]; simpl; [| rewrite IH]; reflexivity. Qed.

(** From an absolute name the loop appends the levels of the walk, one
    after the other, whatever the queries come to. *)
Lemma walk_loop_levels labels :
  forall chain w,
    DNSResolver.walk_loop (DNSResolver.get_dnskeys E) (DNSResolver.get_ds_records E)
      (labels ++ [""])%list chain w
    = ((chain ++ fst (walk_levels E (ancestors labels) w))%list,
       snd (walk_levels E (ancestors labels) w)).
Proof.
  induction labels as [| l rest IH]; intros chain w; rewrite walk_loop_unfold.
  - simpl. rewrite app_nil_r. reflexivity.
  - replace (negb _) with true.
    2: { symmetry. destruct rest; simpl; rewrite Bool.andb_false_r; reflexivity. }
    unfold DNSResolver.walk_body, DNSResolver.get_dnskeys, DNSResolver.get_ds_records.
    rewrite 2 query_is_answer.
    unfold DnsName.parent.
    replace (orb _ _) with false.
    2: { symmetry. apply Bool.orb_false_iff. split; [| reflexivity].
         destruct rest; simpl; apply Bool.andb_false_r. }
    change (tl ((l :: rest) ++ [""])%list) with (rest ++ [""])%list.
    cbv beta iota zeta.
    match goal with
    | |- context [DNSResolver.walk_loop _ _ _ ?c ?w'] =>
      refine (eq_trans (IH c w') _)
    end.
    cbn [ancestors walk_levels]. cbv zeta.
    match goal with
    | |- context [walk_levels E (ancestors rest) ?w2] =>
      destruct (walk_levels E (ancestors rest) w2) as [levels w']
    end.
    cbn [fst snd]. unfold list_append. rewrite <- app_assoc. reflexivity.
Qed.

End OwnWalk.

(** C8, amended. [walk_chain] terminates and returns at most one entry
    per label of the starting name and one more; it raises only when
    the text of the domain does not parse. A query that fails during
    the walk does not stop it: [query] absorbs the exception, the level
    is recorded with an absent answer, and the walk goes on to the
    parent. From an absolute name the chain is exactly the levels of
    the name and of its parents, leaf first, one per label below the
    root. *)
Theorem walk_chain_records_failed_levels :
  forall (E : Env) (dom : string) (w : World),
    (forall e, name_from_text E dom = Raise e ->
       DNSResolver.walk_chain E dom w = (Raise e, w)) /\
    (forall current, name_from_text E dom = Ok current ->
       exists chain w',
         DNSResolver.walk_chain E dom w = (Ok chain, w') /\
         (List.length chain <= List.length current + 1)%nat /\
         (forall labels, current = (labels ++ [""])%list ->
            (chain, w') = walk_levels E (ancestors labels) w /\
            List.length chain = List.length labels)) /\
    (forall text rdtype n e w0,
       name_from_text E text = Ok n ->
       resolve_at E (queries w0) n rdtype = Raise e ->
       DNSResolver.query E text rdtype w0
       = (Ok None, {| clock_reads := clock_reads w0; timer_reads := timer_reads w0;
                      queries := S (queries w0) |}) /\
       answer_of E text rdtype w0 = None).
Proof.
  intros E dom w. split; [| split].
  - intros e H.
    unfold DNSResolver.walk_chain, DNSResolver.walk_chain_with, bind, lift.
    rewrite H. reflexivity.
  - intros current H.
    unfold DNSResolver.walk_chain, DNSResolver.walk_chain_with, bind, lift.
    rewrite H.
    pose proof (walk_loop_length (DNSResolver.get_dnskeys E)
                  (DNSResolver.get_ds_records E) current [] w) as Hlen.
    destruct (DNSResolver.walk_loop _ _ current [] w) as [chain w'] eqn:Hloop.
    exists chain, w'. split; [reflexivity |]. split; [exact Hlen |].
    intros labels ->. rewrite walk_loop_levels in Hloop.
    injection Hloop as <- <-. cbn [app]. split.
    + destruct (walk_levels E (ancestors labels) w); reflexivity.
    + rewrite length_walk_levels. apply length_ancestors.
  - intros text rdtype n e w0 Hn Hr. rewrite query_is_answer.
    unfold answer_of, after_query. rewrite Hn, Hr. split; reflexivity.
Qed.

Lemma walk_chain_records_failed_levels_witness :
  DNSResolver.walk_chain Samples.as_written "b.example" initial_world
  = (Ok [("b.example.", {| dnskeys := None; ds_records := None |});
         ("example.", {| dnskeys := Some [Samples.one_key]; ds_records := None |})],
     {| clock_reads := 0; timer_reads := 0; queries := 4 |}).
Proof.
  destruct (walk_chain_records_failed_levels Samples.as_written "b.example"
              initial_world) as [_ [H _]].
  destruct (H ["b"; "example"; ""] eq_refl) as [chain [w' [H1 [_ H2]]]].
  destruct (H2 ["b"; "example"] eq_refl) as [H3 _].
  rewrite H1. vm_compute in H3. injection H3 as -> ->. reflexivity.
Defined.

(** C8 as stated fails: the resolver raises on both queries for
    [b.example], the second level of the walk from [www.b.example], and
    the walk does not stop there. It records that level with absent
    answers and goes on to [example], whose keys it collects. *)
Lemma walk_chain_continues_after_failed_query :
  resolve_at Samples.as_written 2 ["b"; "example"; ""] DNSKEY = Raise Samples.Timeout /\
  resolve_at Samples.as_written 3 ["b"; "example"; ""] DS = Raise Samples.Timeout /\
  DNSResolver.walk_chain Samples.as_written "www.b.example" initial_world
  = (Ok [("www.b.example.", {| dnskeys := Some [Samples.one_key]; ds_records := None |});
         ("b.example.", {| dnskeys := None; ds_records := None |});
         ("example.", {| dnskeys := Some [Samples.one_key]; ds_records := None |})],
     {| clock_reads := 0; timer_reads := 0; queries := 6 |}).
Proof. split; [reflexivity | split; [reflexivity |]]. vm_compute. reflexivity. Qed.

(** ** Key parsing (tester.py) *)

Section KeyParsing.
Import DNSSECTester.
Variable E : Env.
Hypothesis Hdns : dns_unbound E.

(** The first argument of the [KeyInfo] call raises before any other is
    evaluated. *)
Lemma parse_key_name_error rdata : parse_key E rdata = Raise Samples.NameError.
Proof. unfold parse_key. rewrite Hdns. reflexivity. Qed.

(** So does the parser on every record set that is not empty. *)
Lemma parse_keys_name_error dnskeys :
  truthy dnskeys = true -> _parse_keys E dnskeys = Raise Samples.NameError.
Proof.
  destruct dnskeys as [[| rdata rest] |]; try discriminate. intros _.
  unfold _parse_keys. simpl. rewrite parse_key_name_error. reflexivity.
Qed.

End KeyParsing.

(** C4. In tester.py as it stands the name [dns] is unbound, and
    [_parse_keys] raises [NameError] at the first record of every DNSKEY
    set that is not empty: no [KeyInfo] is built, so no record is given
    either role. *)
Theorem parse_keys_raises_name_error :
  forall (E : Env) (rdata : Rdata) (rest : list Rdata),
    dns_unbound E ->
    DNSSECTester.parse_key E rdata = Raise Samples.NameError /\
    DNSSECTester._parse_keys E (Some (rdata :: rest)) = Raise Samples.NameError.
Proof.
  intros E rdata rest Hdns. split.
  - apply parse_key_name_error. exact Hdns.
  - apply parse_keys_name_error; [exact Hdns | reflexivity].
Qed.

Lemma parse_keys_raises_name_error_witness :
  DNSSECTester._parse_keys Samples.as_written (Some [Samples.one_key])
  = Raise Samples.NameError.
Proof.
  apply (parse_keys_raises_name_error Samples.as_written Samples.one_key []).
  intro rdata. reflexivity.
Defined.

(** * Further properties *)

(** ** Key rollover (validator.py) *)

Section KeyRollover.
Import DNSSECValidator.
Variable E : Env.



End KeyRollover.



(** ** Algorithm numbers and names *)

Section AlgorithmNames.
Import DNSSECValidator.
Variable E : Env.

(** The decimal text of an integer starts with a digit or a minus sign. *)
Lemma of_int_head (n : Z) :
  exists c rest,
    PyStr.of_int n = String c rest /\
    In c ["0"; "1"; "2"; "3"; "4"; "5"; "6"; "7"; "8"; "9"; "-"]%char.
Proof.
  unfold PyStr.of_int. destruct n as [| p | p]; simpl.
  - eexists. eexists. split; [reflexivity | simpl; auto].
  - destruct (Pos.to_uint p); simpl;
      eexists; eexists; (split; [reflexivity | simpl; auto 12]).
  - eexists. eexists. split; [reflexivity | simpl; auto 12].
Qed.

Lemma number_in_no_table (n : Z) :
  PyStr.mem (PyStr.upper (PyStr.of_int n)) DEPRECATED_ALGORITHMS = false /\
  PyStr.mem (PyStr.upper (PyStr.of_int n)) NOT_RECOMMENDED = false.
Proof.
  destruct (of_int_head n) as [c [rest [-> Hc]]]. simpl in Hc.
  repeat (destruct Hc as [<- | Hc]; [split; reflexivity |]).
  contradiction.
Qed.

Lemma check_algorithm_strength_number_returns (n : Z) (w : World) :
  check_algorithm_strength E (AlgNumber n) w = (Ok [], w).
Proof.
  unfold check_algorithm_strength. cbv beta iota zeta delta [py_str].
  destruct (number_in_no_table n) as [-> ->]. reflexivity.
Qed.

Lemma eqb_false_sym (a b : Z) : (a =? b) = false -> (b =? a) = false.
Proof. rewrite Z.eqb_sym. auto. Qed.

Lemma check_algorithm_strength_named_by_number (n : Z) (w : World) :
  exists found,
    returns (check_algorithm_strength E (AlgName (Utils.get_algorithm_name n))) w found /\
    kinds found
    = if orb (n =? 1) (n =? 5) then [(ALGORITHM_WEAK, CRITICAL)]
      else if orb (n =? 8) (orb (n =? 10) (n =? 13)) then [(ALGORITHM_WEAK, MEDIUM)]
      else [].
Proof.
  unfold Utils.get_algorithm_name, Utils.algorithms, Utils.dict_get.
  repeat match goal with
         | |- context [if (?k =? n) then _ else _] =>
           let H := fresh "H" in
           destruct (k =? n) eqn:H;
             [apply Z.eqb_eq in H; subst n;
              eexists; split; [reflexivity | reflexivity]
             | apply eqb_false_sym in H]
         end.
  repeat match goal with H : (n =? _) = false |- _ => rewrite H; clear H end.
  eexists. split; reflexivity.
Qed.

End AlgorithmNames.

(** X3. Given an algorithm number instead of a name,
    [check_algorithm_strength] compares the decimal text of the number
    with the tables of names and finds nothing: it returns no issue for
    any number, the numbers of the deprecated algorithms included, and
    reads no clock. *)
Theorem check_algorithm_strength_number :
  forall (E : Env) (n : Z) (w : World),
    DNSSECValidator.check_algorithm_strength E (DNSSECValidator.AlgNumber n) w
    = (Ok [], w).
Proof. exact check_algorithm_strength_number_returns. Qed.

(** X4. [check_algorithm_strength] on the name that
    [utils.get_algorithm_name] gives a number: one CRITICAL issue for 1
    and 5, one MEDIUM issue for 8, 10 and 13, and nothing for every
    other number. Number 7 goes unflagged, since its name in utils.py
    (RSASHA1-NSEC3-SHA1) is not the spelling of the deprecated table, and
    so does every number without a name. *)
Theorem check_algorithm_strength_of_algorithm_name :
  forall (E : Env) (n : Z) (w : World),
    exists found,
      returns (DNSSECValidator.check_algorithm_strength E
                 (DNSSECValidator.AlgName (Utils.get_algorithm_name n))) w found /\
      kinds found
      = if orb (n =? 1) (n =? 5) then [(ALGORITHM_WEAK, CRITICAL)]
        else if orb (n =? 8) (orb (n =? 10) (n =? 13)) then [(ALGORITHM_WEAK, MEDIUM)]
        else [].
Proof. exact check_algorithm_strength_named_by_number. Qed.

(** ** The summary of the JSON report *)

Lemma overall_status_values (r : ValidationResult) :
  In (overall_status r)
     ["no_dnssec"; "critical_issues"; "vulnerable"; "warnings"; "secure"].
Proof.
  unfold overall_status.
  destruct (negb _); [simpl; auto |].
  destruct (existsb _ _); [simpl; auto |].
  destruct (existsb _ _); [simpl; auto |].
  destruct (security_issues r); simpl; auto 6.
Qed.

Lemma summary_counts (results : list ValidationResult) :
  Z.of_nat (List.length results)
  = JSONReporter.count_status "secure" results
    + JSONReporter.count_status "warnings" results
    + JSONReporter.count_status "vulnerable" results
    + JSONReporter.count_status "no_dnssec" results
    + JSONReporter.count_status "critical_issues" results.
Proof.
  unfold JSONReporter.count_status.
  induction results as [| r rest IH]; [reflexivity |].
  cbn [filter List.length].
  destruct (overall_status_values r) as [H | [H | [H | [H | [H | []]]]]];
    rewrite <- H; cbn [String.eqb Ascii.eqb Bool.eqb List.length]; lia.
Qed.

(** X5. The summary of the JSON report has no bucket for the status
    [critical_issues]: its four counts add up to the number of domains
    less the number of results with that status, so they fall short of
    [total_domains] exactly when some domain has a critical issue. *)
Theorem json_summary_omits_critical :
  forall results : list ValidationResult,
    let s := JSONReporter.summary results in
    JSONReporter.secure_domains s + JSONReporter.domains_with_warnings s
    + JSONReporter.vulnerable_domains s + JSONReporter.no_dnssec s
    = JSONReporter.total_domains s
      - JSONReporter.count_status "critical_issues" results /\
    (JSONReporter.secure_domains s + JSONReporter.domains_with_warnings s
     + JSONReporter.vulnerable_domains s + JSONReporter.no_dnssec s
     < JSONReporter.total_domains s
     <-> exists r, In r results /\ dnssec_enabled r = true /\ has_severity CRITICAL r).
Proof.
  intros results s. subst s. simpl.
  pose proof (summary_counts results) as Hsum. split; [lia |].
  assert (Hc : 0 < JSONReporter.count_status "critical_issues" results
               <-> exists r, In r results /\ dnssec_enabled r = true /\
                             has_severity CRITICAL r).
  { unfold JSONReporter.count_status. split.
    - intro Hpos.
      destruct (filter _ results) as [| r l] eqn:Hf; [simpl in Hpos; lia |].
      assert (Hin : In r (filter (fun r => String.eqb (overall_status r) "critical_issues")
                            results)) by (rewrite Hf; left; reflexivity).
      apply filter_In in Hin. destruct Hin as [Hin Hs]. apply String.eqb_eq in Hs.
      exists r. split; [exact Hin |].
      unfold overall_status in Hs.
      destruct (dnssec_enabled r); simpl in Hs; [| discriminate].
      split; [reflexivity |].
      destruct (existsb _ (security_issues r)) eqn:He.
      + apply existsb_severity. exact He.
      + cbv iota in Hs.
        destruct (existsb (fun i => Severity_eqb (severity i) HIGH) _);
          [discriminate Hs |].
        destruct (security_issues r); discriminate Hs.
    - intros [r [Hin [Hen Hcrit]]].
      assert (Hs : overall_status r = "critical_issues").
      { unfold overall_status. rewrite Hen. simpl.
        apply existsb_severity in Hcrit. rewrite Hcrit. reflexivity. }
      assert (Hin' : In r (filter (fun r => String.eqb (overall_status r) "critical_issues")
                             results)).
      { apply filter_In. split; [exact Hin |]. rewrite Hs. reflexivity. }
      destruct (filter _ results); [contradiction | simpl; lia]. }
  rewrite <- Hc. lia.
Qed.

(** ** The analyzer (analyzer.py) *)

Section Analysis.
Import DNSSECAnalyzer.
Variable E : Env.








End Analysis.



(** ** The result under construction *)

Section BlockResults.
Import DNSSECValidator DNSSECTester.
Variable E : Env.
Variable config : DNSSECConfig.

(** [test_domain] with key material at the leaf, in terms of its [try]
    block: the block starts from an empty result, and what it leaves is
    returned with the elapsed time filled in. *)
Lemma test_domain_through_block dom w records :
  leaf_keys E dom w = Ok (Some records) ->
  exists r0 w2,
    (ksk_list r0 = [] /\ zsk_list r0 = [] /\ security_issues r0 = [] /\
     chain_of_trust r0 = [] /\ chain_valid r0 = false /\
     dnssec_enabled r0 = true /\ domain r0 = dom) /\
    queries w2 = queries (snd (DNSResolver.get_dnskeys E dom (snd (time_time E w)))) /\
    (forall r' w',
        validation_block E config dom (Some records) r0 w2 = (Ok tt, r', w') ->
        exists t,
          test_domain E config dom w
          = (Ok (set_validation_time_ms t r'), snd (time_time E w'))) /\
    (forall e r' w',
        validation_block E config dom (Some records) r0 w2 = (Raise e, r', w') ->
        exists t issue,
          test_domain E config dom w
          = (Ok (set_validation_time_ms t
                   (set_security_issues (list_append (security_issues r') issue) r')),
             snd (time_time E (snd (utcnow E w')))) /\
          severity issue = HIGH /\ type issue = CHAIN_INVALID /\
          message issue = "Validation error: " ++ exn_str e).
Proof.
  unfold leaf_keys, test_domain.
  cbv beta iota delta [bind time_time]. cbn [fst snd].
  destruct (DNSResolver.get_dnskeys E dom _) as [[dnskeys | e] w1];
    simpl; intro H; [| discriminate].
  injection H as ->.
  change (negb (is_not_None (Some records))) with false.
  change (is_not_None (Some records)) with true. cbv beta iota.
  unfold validation_try.
  match goal with
  | |- context [validation_block E config dom (Some records) ?r0 ?w0] =>
    exists r0, w0
  end.
  split; [repeat split |]. split; [reflexivity |]. split.
  - intros r' w' Hb. rewrite Hb. eexists. reflexivity.
  - intros e r' w' Hb. rewrite Hb. cbv beta iota. unfold bind.
    rewrite new_issue_returns. unfold ret. eexists. eexists.
    split; [reflexivity | split; [reflexivity | split; reflexivity]].
Qed.

End BlockResults.

(** C10. In tester.py as it stands, key material at the leaf never
    reaches the chain walk: the parser raises [NameError] first, and
    the [except] branch of [test_domain] returns the result with
    [chain_valid] false and no chain, whatever the configuration says
    about following the chain, adding one HIGH issue that carries the
    message of the error. No query follows the leaf query. *)
Theorem chain_valid_lost_to_name_error :
  forall (E : Env) (config : DNSSECConfig) (dom : string) (w : World)
         (rdata : Rdata) (rest : list Rdata),
    dns_unbound E ->
    leaf_keys E dom w = Ok (Some (rdata :: rest)) ->
    exists r issue,
      returns (DNSSECTester.test_domain E config dom) w r /\
      dnssec_enabled r = true /\
      chain_of_trust r = [] /\
      chain_valid r = false /\
      security_issues r = [issue] /\
      severity issue = HIGH /\ type issue = CHAIN_INVALID /\
      message issue = "Validation error: name 'dns' is not defined" /\
      queries (snd (DNSSECTester.test_domain E config dom w))
      = queries (snd (DNSResolver.get_dnskeys E dom (snd (time_time E w)))).
Proof.
  intros E config dom w rdata rest Hdns Hl.
  destruct (test_domain_through_block E config dom w (rdata :: rest) Hl)
    as [r0 [w2 [[_ [_ [Hs [Hc [Hv [Hen _]]]]]] [Hq [_ Herr]]]]].
  pose proof (validation_block_parse_error E config dom (Some (rdata :: rest))
                Samples.NameError r0 w2
                (parse_keys_name_error E Hdns (Some (rdata :: rest)) eq_refl)) as Hb.
  destruct (Herr _ _ _ Hb) as [t [issue [Ht [H1 [H2 H3]]]]].
  eexists. exists issue. unfold returns. rewrite Ht. cbn [fst snd].
  split; [reflexivity |].
  split; [exact Hen |]. split; [exact Hc |]. split; [exact Hv |].
  split; [simpl; rewrite Hs; reflexivity |].
  split; [exact H1 |]. split; [exact H2 |]. split; [exact H3 |].
  simpl. exact Hq.
Qed.

Lemma chain_valid_lost_to_name_error_witness :
  follow_chain default_config = true /\
  returns (DNSSECTester._walk_and_validate_chain Samples.as_written "a.example")
          initial_world [] /\
  exists r,
    returns (DNSSECTester.test_domain Samples.as_written default_config "a.example")
            initial_world r /\
    chain_of_trust r = [] /\ chain_valid r = false.
Proof.
  split; [reflexivity |]. split; [reflexivity |].
  destruct (chain_valid_lost_to_name_error Samples.as_written default_config
              "a.example" initial_world Samples.one_key []
              (fun rdata => eq_refl) eq_refl)
    as [r [issue [H1 [_ [H2 [H3 _]]]]]].
  exists r. split; [exact H1 |]. split; [exact H2 | exact H3].
Defined.

(** ** Recommendations (analyzer.py) *)

Lemma critical_filter_nonempty (r : ValidationResult) :
  DNSSECAnalyzer.is_empty
    (filter (fun i => Severity_eqb (severity i) CRITICAL) (security_issues r)) = false
  <-> has_severity CRITICAL r.
Proof.
  rewrite <- existsb_severity. split.
  - intro H.
    destruct (filter _ (security_issues r)) as [| i l] eqn:Hf; [discriminate |].
    assert (Hin : In i (filter (fun i => Severity_eqb (severity i) CRITICAL)
                          (security_issues r))) by (rewrite Hf; left; reflexivity).
    apply filter_In in Hin. apply existsb_exists. exists i. exact Hin.
  - intro H. apply existsb_exists in H. destruct H as [i Hi].
    assert (Hin : In i (filter (fun i => Severity_eqb (severity i) CRITICAL)
                          (security_issues r))) by (apply filter_In; exact Hi).
    destruct (filter _ (security_issues r)); [contradiction | reflexivity].
Qed.

Lemma generate_recommendations_shape (r : ValidationResult) :
  let recommendations := DNSSECAnalyzer.generate_recommendations r in
  let critical :=
    filter (fun i => Severity_eqb (severity i) CRITICAL) (security_issues r) in
  last recommendations ""
  = "Monitor DNSSEC validation status regularly using this tool" /\
  (1 <= List.length recommendations <= 4)%nat /\
  (hd "" recommendations
   = "Enable DNSSEC to protect against DNS spoofing and cache poisoning"
   <-> dnssec_enabled r = false) /\
  (has_severity CRITICAL r ->
   In ("Address " ++ PyStr.of_int (Z.of_nat (List.length critical))
         ++ " critical security issues immediately") recommendations) /\
  (~ has_severity CRITICAL r ->
   forall n, ~ In ("Address " ++ n) recommendations).
Proof.
  intros recommendations critical. subst recommendations.
  pose proof (critical_filter_nonempty r) as Hcrit. fold critical in Hcrit.
  unfold DNSSECAnalyzer.generate_recommendations. fold critical.
  assert (Hnil : security_issues r = [] -> critical = []).
  { intro H. unfold critical. rewrite H. reflexivity. }
  destruct (dnssec_enabled r);
    destruct (DNSSECAnalyzer.is_empty (security_issues r)) eqn:Hi;
    destruct (DNSSECAnalyzer.is_empty critical) eqn:Hc;
    destruct (DNSSECAnalyzer.is_empty (ksk_list r));
    destruct (DNSSECAnalyzer.is_empty (zsk_list r));
    cbn [negb orb list_append app last hd List.length];
    (split; [reflexivity |]); (split; [lia |]);
    (split; [split; intro H; first [reflexivity | discriminate H] |]);
    (split;
     [ intro H; first [ simpl; tauto
                      | exfalso; apply Hcrit in H; discriminate H
                      | exfalso; destruct (security_issues r);
                        [rewrite (Hnil eq_refl) in Hc; discriminate Hc
                        | discriminate Hi] ]
     | intros H n Hin; simpl in Hin;
       first [ exfalso; apply H, Hcrit; reflexivity
             | repeat (destruct Hin as [Hin | Hin]; [discriminate Hin |]);
               contradiction ] ]).
Qed.

(** X8. The recommendations always end with the monitoring reminder
    and count between one and four. The advice to enable DNSSEC comes
    first exactly when DNSSEC is disabled. The advice to address N
    critical issues appears exactly when some issue is CRITICAL, with N
    the number of CRITICAL issues. *)
Theorem generate_recommendations_rule :
  forall r : ValidationResult,
    let recommendations := DNSSECAnalyzer.generate_recommendations r in
    let critical :=
      filter (fun i => Severity_eqb (severity i) CRITICAL) (security_issues r) in
    last recommendations ""
    = "Monitor DNSSEC validation status regularly using this tool" /\
    (1 <= List.length recommendations <= 4)%nat /\
    (hd "" recommendations
     = "Enable DNSSEC to protect against DNS spoofing and cache poisoning"
     <-> dnssec_enabled r = false) /\
    (has_severity CRITICAL r ->
     In ("Address " ++ PyStr.of_int (Z.of_nat (List.length critical))
           ++ " critical security issues immediately") recommendations) /\
    (~ has_severity CRITICAL r ->
     forall n, ~ In ("Address " ++ n) recommendations).
Proof. exact generate_recommendations_shape. Qed.

(** ** Queries and the walk with the resolver's own queries *)

Section OwnQueries.
Variable E : Env.

Lemma query_without_name dom rdtype w e :
  name_from_text E dom = Raise e ->
  DNSResolver.query E dom rdtype w = (Ok None, w).
Proof.
  intro H. unfold DNSResolver.query, try_except, bind, lift, ret. rewrite H.
  reflexivity.
Qed.

Lemma query_with_name dom rdtype w n :
  name_from_text E dom = Ok n ->
  exists answer,
    DNSResolver.query E dom rdtype w
    = (Ok answer,
       {| clock_reads := clock_reads w; timer_reads := timer_reads w;
          queries := S (queries w) |}) /\
    (forall e, resolve_at E (queries w) n rdtype = Raise e -> answer = None) /\
    (resolve_at E (queries w) n rdtype = Ok [] -> answer = None) /\
    (forall first rest,
        resolve_at E (queries w) n rdtype = Ok (first :: rest) -> answer = Some first).
Proof.
  intro H. unfold DNSResolver.query, try_except, bind, lift, ret, resolve. rewrite H.
  destruct (resolve_at E (queries w) n rdtype) as [[| first rest] | e];
    eexists; (split; [reflexivity |]);
    repeat split; intros; congruence.
Qed.

Lemma map_fst_list_append {A B} (l : list (A * B)) (x : A * B) :
  map fst (list_append l x) = (map fst l ++ [fst x])%list.
Proof. unfold list_append. rewrite map_app. reflexivity. Qed.

Lemma walk_loop_names (labels : list string) :
  forall chain w,
    map fst
      (fst (DNSResolver.walk_loop (DNSResolver.get_dnskeys E)
              (DNSResolver.get_ds_records E) (labels ++ [""])%list chain w))
    = (map fst chain ++ map DnsName.to_text (ancestors labels))%list /\
    (queries
       (snd (DNSResolver.walk_loop (DNSResolver.get_dnskeys E)
               (DNSResolver.get_ds_records E) (labels ++ [""])%list chain w))
     <= queries w + 2 * List.length labels)%nat.
Proof.
  induction labels as [| l rest IH]; intros chain w; rewrite walk_loop_unfold.
  - simpl. rewrite app_nil_r. split; [reflexivity | lia].
  - replace (negb _) with true.
    2: { symmetry. destruct rest; simpl; rewrite Bool.andb_false_r; reflexivity. }
    unfold DNSResolver.walk_body, DNSResolver.get_dnskeys, DNSResolver.get_ds_records.
    destruct (query_absorbs E (DnsName.to_text ((l :: rest) ++ [""])%list) DNSKEY w)
      as [dk [w1 [Hq1 [Hb1 _]]]].
    rewrite Hq1.
    destruct (query_absorbs E (DnsName.to_text ((l :: rest) ++ [""])%list) DS w1)
      as [ds [w2 [Hq2 [Hb2 _]]]].
    rewrite Hq2.
    unfold DnsName.parent.
    replace (orb _ _) with false.
    2: { symmetry. apply Bool.orb_false_iff. split; [| reflexivity].
         destruct rest; simpl; apply Bool.andb_false_r. }
    change (tl ((l :: rest) ++ [""])%list) with (rest ++ [""])%list.
    cbv beta iota zeta.
    match goal with
    | |- context [DNSResolver.walk_loop _ _ _ ?c ?w'] =>
      destruct (IH c w') as [IH1 IH2]
    end.
    split.
    + refine (eq_trans IH1 _). rewrite map_fst_list_append. cbn [fst ancestors map].
      rewrite <- app_assoc. reflexivity.
    + refine (Nat.le_trans _ _ _ IH2 _). cbn [List.length]. lia.
Qed.

End OwnQueries.

(** X9. [query] never raises: a name that does not parse, an exception
    of the resolver and an empty answer section all give [None]. It
    sends no query when the name does not parse and exactly one when it
    does, and returns the first record set of a non-empty answer. *)
Theorem query_absorbs_failures :
  forall (E : Env) (dom : string) (rdtype : RdType) (w : World),
    (forall e, name_from_text E dom = Raise e ->
       DNSResolver.query E dom rdtype w = (Ok None, w)) /\
    (forall n, name_from_text E dom = Ok n ->
       exists answer,
         DNSResolver.query E dom rdtype w
         = (Ok answer,
            {| clock_reads := clock_reads w; timer_reads := timer_reads w;
               queries := S (queries w) |}) /\
         (forall e, resolve_at E (queries w) n rdtype = Raise e -> answer = None) /\
         (resolve_at E (queries w) n rdtype = Ok [] -> answer = None) /\
         (forall first rest,
             resolve_at E (queries w) n rdtype = Ok (first :: rest) ->
             answer = Some first)).
Proof.
  intros E dom rdtype w. split.
  - intro e. apply query_without_name.
  - intro n. apply query_with_name.
Qed.

(** The levels of the walk with the resolver's own queries. *)
Lemma walk_chain_own_levels :
  forall (E : Env) (dom : string) (labels : list string) (w : World),
    name_from_text E dom = Ok (labels ++ [""])%list ->
    exists chain,
      returns (DNSResolver.walk_chain E dom) w chain /\
      map fst chain = map DnsName.to_text (ancestors labels) /\
      List.length chain = List.length labels /\
      (queries (snd (DNSResolver.walk_chain E dom w))
       <= queries w + 2 * List.length labels)%nat.
Proof.
  intros E dom labels w Hn.
  unfold DNSResolver.walk_chain, DNSResolver.walk_chain_with, returns, bind, lift.
  rewrite Hn.
  destruct (walk_loop_names E labels [] w) as [H1 H2].
  pose proof (walk_loop_exact E labels [] w) as H3.
  destruct (DNSResolver.walk_loop _ _ _ [] w) as [chain w']. simpl in *.
  exists chain. repeat split; assumption.
Qed.

(** X10. With the resolver's own queries, [walk_chain] on a domain whose
    text parses to an absolute name returns one entry per label below
    the root, named after the domain and its successive parents, leaf
    first, and sends at most two queries per label. A level whose
    queries fail is still recorded, with absent answers. *)
Theorem walk_chain_levels :
  forall (E : Env) (dom : string) (labels : list string) (w : World),
    name_from_text E dom = Ok (labels ++ [""])%list ->
    exists chain,
      returns (DNSResolver.walk_chain E dom) w chain /\
      map fst chain = map DnsName.to_text (ancestors labels) /\
      List.length chain = List.length labels /\
      (queries (snd (DNSResolver.walk_chain E dom w))
       <= queries w + 2 * List.length labels)%nat.
Proof. exact walk_chain_own_levels. Qed.

Lemma walk_chain_levels_witness :
  exists chain,
    returns (DNSResolver.walk_chain Samples.as_written "www.b.example") initial_world
            chain /\
    map fst chain = ["www.b.example."; "b.example."; "example."].
Proof.
  destruct (walk_chain_levels Samples.as_written "www.b.example"
              ["www"; "b"; "example"] initial_world eq_refl)
    as [chain [H1 [H2 _]]].
  exists chain. split; [exact H1 | exact H2].
Defined.

(** ** Chain elements (tester.py) *)

Section ChainElements.
Import DNSSECTester.
Variable E : Env.

(** The loop over the levels appends the element built of each level,
    in order, and stops at the first level whose keys fail to parse. *)
Lemma validate_loop_built (chain_data : list (string * ChainData)) :
  forall chain,
    exists n new,
      (n <= List.length chain_data)%nat /\
      validate_loop E chain_data chain = (chain ++ new)%list /\
      Forall2 (element_built E) (firstn n chain_data) new /\
      (n = List.length chain_data \/
       exists level e,
         nth_error chain_data n = Some level /\
         truthy (dnskeys (snd level)) = true /\
         _parse_keys E (dnskeys (snd level)) = Raise e).
Proof.
  induction chain_data as [| [domain_name data] rest IH]; intro chain.
  - exists 0%nat, []. simpl. rewrite app_nil_r.
    split; [lia |]. split; [reflexivity |]. split; [constructor | left; reflexivity].
  - cbn [validate_loop].
    destruct (truthy (dnskeys data)) eqn:Ht.
    + destruct (_parse_keys E (dnskeys data)) as [parsed | e] eqn:Hp.
      * match goal with
        | |- context [validate_loop E rest (list_append chain ?el)] =>
          destruct (IH (list_append chain el)) as [n [new [Hn [Hv [HF Hc]]]]];
          exists (S n), (el :: new)
        end.
        split; [simpl; lia |].
        split; [rewrite Hv; unfold list_append; rewrite <- app_assoc; reflexivity |].
        split.
        -- cbn [firstn]. constructor; [| exact HF].
           exists parsed. cbn [fst snd]. rewrite Ht. split; [exact Hp | reflexivity].
        -- destruct Hc as [-> | [level [e [H1 [H2 H3]]]]]; [left; reflexivity |].
           right. exists level, e. split; [exact H1 | split; assumption].
      * exists 0%nat, []. rewrite app_nil_r.
        split; [simpl; lia |]. split; [reflexivity |]. split; [constructor |].
        right. exists (domain_name, data), e.
        split; [reflexivity | split; assumption].
    + match goal with
      | |- context [validate_loop E rest (list_append chain ?el)] =>
        destruct (IH (list_append chain el)) as [n [new [Hn [Hv [HF Hc]]]]];
        exists (S n), (el :: new)
      end.
      split; [simpl; lia |].
      split; [rewrite Hv; unfold list_append; rewrite <- app_assoc; reflexivity |].
      split.
      * cbn [firstn]. constructor; [| exact HF].
        exists []. cbn [fst snd]. rewrite Ht. split; reflexivity.
      * destruct Hc as [-> | [level [e [H1 [H2 H3]]]]]; [left; reflexivity |].
        right. exists level, e. split; [exact H1 | split; assumption].
Qed.

(** With [dns] unbound, an element is built only of a level without keys. *)
Lemma element_built_without_keys level element :
  dns_unbound E -> element_built E level element ->
  rdtype element = "DS" /\ keys element = [].
Proof.
  intros Hdns [parsed [Hp ->]].
  destruct (truthy (dnskeys (snd level))) eqn:Ht.
  - rewrite (parse_keys_name_error E Hdns _ Ht) in Hp. discriminate Hp.
  - subst parsed. split; reflexivity.
Qed.

(** [_walk_and_validate_chain] over the levels that [walk_chain] returns. *)
Lemma walk_and_validate_chain_over_levels dom w :
  (forall e, fst (DNSResolver.walk_chain E dom w) = Raise e ->
     _walk_and_validate_chain E dom w = (Ok [], snd (DNSResolver.walk_chain E dom w))) /\
  (forall chain_data, fst (DNSResolver.walk_chain E dom w) = Ok chain_data ->
     _walk_and_validate_chain E dom w
     = (Ok (validate_loop E chain_data []), snd (DNSResolver.walk_chain E dom w))).
Proof.
  unfold _walk_and_validate_chain, try_except, bind, ret.
  destruct (DNSResolver.walk_chain E dom w) as [[chain_data | e'] w']; simpl; split;
    intros x H; try discriminate H; try (injection H as <-); reflexivity.
Qed.

End ChainElements.

(** X11. [_walk_and_validate_chain] never raises, and sends the queries
    of [walk_chain] and no other. When [walk_chain] raises it returns
    the empty chain. When [walk_chain] returns its levels, the chain is
    made of the elements built of the first [n] levels, one each and in
    order: named after the level, of record type DNSKEY with the parsed
    keys when the key set is not empty, DS without keys otherwise, valid
    when the key answer is not [None]. Either [n] is the number of
    levels, or level [n] is the first whose keys fail to parse, and the
    error is swallowed. In tester.py as it stands the parser raises on
    every key set that is not empty, so every element returned is a DS
    element without keys. *)
Theorem walk_and_validate_chain_prefix :
  forall (E : Env) (dom : string) (w : World),
    (forall e, fst (DNSResolver.walk_chain E dom w) = Raise e ->
       DNSSECTester._walk_and_validate_chain E dom w
       = (Ok [], snd (DNSResolver.walk_chain E dom w))) /\
    (forall chain_data, fst (DNSResolver.walk_chain E dom w) = Ok chain_data ->
       exists chain n,
         DNSSECTester._walk_and_validate_chain E dom w
         = (Ok chain, snd (DNSResolver.walk_chain E dom w)) /\
         (n <= List.length chain_data)%nat /\
         Forall2 (element_built E) (firstn n chain_data) chain /\
         (n = List.length chain_data \/
          exists level e,
            nth_error chain_data n = Some level /\
            truthy (dnskeys (snd level)) = true /\
            DNSSECTester._parse_keys E (dnskeys (snd level)) = Raise e)) /\
    (dns_unbound E ->
     forall chain,
       returns (DNSSECTester._walk_and_validate_chain E dom) w chain ->
       Forall (fun element => rdtype element = "DS" /\ keys element = []) chain).
Proof.
  intros E dom w.
  destruct (walk_and_validate_chain_over_levels E dom w) as [Hraise Hok].
  assert (Hbuilt : forall chain_data,
             fst (DNSResolver.walk_chain E dom w) = Ok chain_data ->
             exists chain n,
               DNSSECTester._walk_and_validate_chain E dom w
               = (Ok chain, snd (DNSResolver.walk_chain E dom w)) /\
               (n <= List.length chain_data)%nat /\
               Forall2 (element_built E) (firstn n chain_data) chain /\
               (n = List.length chain_data \/
                exists level e,
                  nth_error chain_data n = Some level /\
                  truthy (dnskeys (snd level)) = true /\
                  DNSSECTester._parse_keys E (dnskeys (snd level)) = Raise e)).
  { intros chain_data H.
    destruct (validate_loop_built E chain_data []) as [n [new [Hn [Hv [HF Hc]]]]].
    exists new, n. split; [rewrite (Hok _ H), Hv; reflexivity |].
    split; [exact Hn |]. split; [exact HF | exact Hc]. }
  split; [exact Hraise |]. split; [exact Hbuilt |].
  intros Hdns chain Hr. unfold returns in Hr.
  destruct (fst (DNSResolver.walk_chain E dom w)) as [chain_data | e] eqn:Hw.
  - destruct (Hbuilt chain_data eq_refl) as [chain' [n [Heq [_ [HF _]]]]].
    rewrite Heq in Hr. simpl in Hr. injection Hr as <-.
    clear Heq. induction HF as [| level element levels elements Hb _ IH];
      constructor; [| exact IH].
    exact (element_built_without_keys E level element Hdns Hb).
  - rewrite (Hraise e eq_refl) in Hr. simpl in Hr. injection Hr as <-. constructor.
Qed.

Lemma walk_and_validate_chain_prefix_witness :
  exists chain n w',
    DNSSECTester._walk_and_validate_chain Samples.signed_parent "www.a.example"
      initial_world = (Ok chain, w') /\
    chain
    = [{| name := "www.a.example."; rdtype := "DS"; valid := false; keys := [];
          signatures := []; issues := []; element_details := [] |};
       {| name := "a.example."; rdtype := "DS"; valid := true; keys := [];
          signatures := []; issues := []; element_details := [] |}] /\
    n = 2%nat /\
    exists level e,
      nth_error
        [("www.a.example.", {| dnskeys := None; ds_records := None |});
         ("a.example.", {| dnskeys := Some []; ds_records := None |});
         ("example.", {| dnskeys := Some [Samples.one_key]; ds_records := None |})]
        n = Some level /\
      truthy (dnskeys (snd level)) = true /\
      DNSSECTester._parse_keys Samples.signed_parent (dnskeys (snd level)) = Raise e.
Proof.
  destruct (walk_and_validate_chain_prefix Samples.signed_parent "www.a.example"
              initial_world) as [_ [H _]].
  destruct (H [("www.a.example.", {| dnskeys := None; ds_records := None |});
               ("a.example.", {| dnskeys := Some []; ds_records := None |});
               ("example.", {| dnskeys := Some [Samples.one_key]; ds_records := None |})]
              eq_refl) as [chain [n [Heq [Hn [HF Hc]]]]].
  exists chain, n. eexists. split; [exact Heq |].
  pose proof Heq as Hchain. vm_compute in Hchain. injection Hchain as Hchain.
  split; [symmetry; exact Hchain |].
  assert (Hn2 : n = 2%nat).
  { apply Forall2_length in HF. rewrite <- Hchain, length_firstn in HF.
    simpl in HF, Hn. lia. }
  split; [exact Hn2 |].
  destruct Hc as [Hc | Hc]; [simpl in Hc; lia | exact Hc].
Defined.

(** ** An empty key set at the leaf *)

Section EmptyKeySet.
Import DNSSECValidator DNSSECTester.
Variable E : Env.
Variable config : DNSSECConfig.

Lemma validation_block_empty dom r w :
  security_issues r = [] ->
  exists i1 i2 r' w',
    validation_block E config dom (Some []) r w = (Ok tt, r', w') /\
    ksk_list r' = [] /\ zsk_list r' = [] /\
    security_issues r' = [i1; i2] /\
    kinds [i1; i2] = [(KEY_WEAK, HIGH); (KEY_WEAK, HIGH)] /\
    message i1 = "No Key Signing Key (KSK) found" /\
    message i2 = "No Zone Signing Key (ZSK) found" /\
    dnssec_enabled r' = dnssec_enabled r.
Proof.
  intro Hs. unfold validation_block.
  unfold on_bind at 1. unfold call at 1. unfold lift.
  change (_parse_keys E (Some [])) with (@Ok (list KeyInfo) []).
  cbv beta iota. cbn [filter for_each].
  assert (Hskip : forall b : bool, (if b then on_ret tt else on_ret tt) = on_ret tt)
    by (intros []; reflexivity).
  rewrite 2 Hskip.
  unfold on_bind, assign, on_ret, call.
  unfold check_key_rollover. cbv zeta. cbn [filter]. unfold bind, ret. cbv beta iota.
  repeat (rewrite new_issue_returns; cbv beta iota).
  unfold utcnow. cbv beta iota. cbn [rollover_loop]. unfold ret. cbv beta iota.
  destruct (follow_chain config).
  - destruct (walk_and_validate_chain_returns E dom
                {| clock_reads := S (S (S (clock_reads w)));
                   timer_reads := timer_reads w; queries := queries w |})
      as [chain Hc].
    unfold returns in Hc. cbn [clock_reads timer_reads queries].
    destruct (_walk_and_validate_chain E dom _) as [x w']. simpl in Hc. subst x.
    eexists. eexists. eexists. eexists. split; [reflexivity |].
    simpl. rewrite Hs. repeat split.
  - eexists. eexists. eexists. eexists. split; [reflexivity |].
    simpl. rewrite Hs. repeat split.
Qed.

End EmptyKeySet.

(** X12. When the leaf query is answered with an empty key set,
    [test_domain] still reports DNSSEC as enabled, where
    [utils.is_dnssec_enabled] says disabled: the result has no key in
    either list, exactly two issues, both HIGH (no key-signing key, no
    zone-signing key), and status [vulnerable]. *)
Theorem test_domain_empty_key_set :
  forall (E : Env) (config : DNSSECConfig) (dom : string) (w : World),
    leaf_keys E dom w = Ok (Some []) ->
    exists r i1 i2,
      returns (DNSSECTester.test_domain E config dom) w r /\
      dnssec_enabled r = true /\
      Utils.is_dnssec_enabled (Some []) = false /\
      ksk_list r = [] /\ zsk_list r = [] /\
      security_issues r = [i1; i2] /\
      kinds [i1; i2] = [(KEY_WEAK, HIGH); (KEY_WEAK, HIGH)] /\
      message i1 = "No Key Signing Key (KSK) found" /\
      message i2 = "No Zone Signing Key (ZSK) found" /\
      overall_status r = "vulnerable".
Proof.
  intros E config dom w Hl.
  destruct (test_domain_through_block E config dom w [] Hl)
    as [r0 [w2 [[_ [_ [Hs [_ [_ [Hen _]]]]]] [_ [Hok _]]]]].
  destruct (validation_block_empty E config dom r0 w2 Hs)
    as [i1 [i2 [r' [w' [Hb [Hk [Hz [Hi [Hkinds [Hm1 [Hm2 Hen']]]]]]]]]]].
  destruct (Hok r' w' Hb) as [t Ht].
  exists (set_validation_time_ms t r'), i1, i2.
  split; [unfold returns; rewrite Ht; reflexivity |].
  split; [simpl; congruence |]. split; [reflexivity |].
  split; [exact Hk |]. split; [exact Hz |]. split; [exact Hi |].
  split; [exact Hkinds |]. split; [exact Hm1 |]. split; [exact Hm2 |].
  unfold overall_status. simpl dnssec_enabled. simpl security_issues.
  rewrite Hen', Hen, Hi. simpl negb. cbv iota.
  injection Hkinds as _ Hs1 _ Hs2. simpl. rewrite Hs1, Hs2. reflexivity.
Qed.

Lemma test_domain_empty_key_set_witness :
  exists r,
    returns (DNSSECTester.test_domain Samples.empty_answer default_config "example.com")
            initial_world r /\
    dnssec_enabled r = true /\ overall_status r = "vulnerable".
Proof.
  destruct (test_domain_empty_key_set Samples.empty_answer default_config
              "example.com" initial_world eq_refl)
    as [r [i1 [i2 [H1 [H2 [_ [_ [_ [_ [_ [_ [_ H3]]]]]]]]]]]].
  exists r. split; [exact H1 |]. split; [exact H2 | exact H3].
Defined.

(** ** The chain stored in the result *)

Section StoredChain.
Import DNSSECValidator DNSSECTester.
Variable E : Env.
Variable config : DNSSECConfig.

(** With an empty key set at the leaf the [try] block runs to its end:
    the rollover check reads the clock three times, and the chain walk
    starts from there. *)
Lemma test_domain_stores_walked_chain dom w :
  leaf_keys E dom w = Ok (Some []) ->
  exists r,
    returns (test_domain E config dom) w r /\
    (follow_chain config = true ->
     forall w1, w1 = snd (DNSResolver.get_dnskeys E dom (snd (time_time E w))) ->
       returns (_walk_and_validate_chain E dom)
               {| clock_reads := 4 + clock_reads w1; timer_reads := timer_reads w1;
                  queries := queries w1 |}
               (chain_of_trust r) /\
       chain_valid r = forallb valid (chain_of_trust r)) /\
    (follow_chain config = false -> chain_of_trust r = [] /\ chain_valid r = false).
Proof.
  unfold leaf_keys, returns, test_domain.
  cbv beta iota delta [bind time_time]. cbn [fst snd].
  destruct (DNSResolver.get_dnskeys E dom _) as [[dnskeys | e] w1];
    simpl; intro H; [| discriminate].
  injection H as ->.
  change (negb (is_not_None (Some (@nil Rdata)))) with false.
  change (is_not_None (Some (@nil Rdata))) with true. cbv beta iota.
  unfold validation_try, validation_block.
  unfold on_bind at 1. unfold call at 1. unfold lift.
  change (_parse_keys E (Some [])) with (@Ok (list KeyInfo) []).
  cbv beta iota. cbn [filter for_each].
  assert (Hskip : forall b : bool, (if b then on_ret tt else on_ret tt) = on_ret tt)
    by (intros []; reflexivity).
  rewrite 2 Hskip.
  unfold on_bind, assign, on_ret, call.
  unfold check_key_rollover. cbv zeta. cbn [filter]. unfold bind, ret. cbv beta iota.
  repeat (rewrite new_issue_returns; cbv beta iota).
  unfold utcnow. cbv beta iota. cbn [rollover_loop]. unfold ret. cbv beta iota.
  destruct (follow_chain config).
  - cbn [clock_reads timer_reads queries].
    change (S (S (S (S (clock_reads w1))))) with (4 + clock_reads w1)%nat.
    set (w3 := {| clock_reads := 4 + clock_reads w1;
                  timer_reads := timer_reads w1; queries := queries w1 |}).
    destruct (walk_and_validate_chain_returns E dom w3) as [chain Hc].
    unfold returns in Hc.
    destruct (_walk_and_validate_chain E dom w3) as [x w'] eqn:Hwalk.
    simpl in Hc. subst x.
    eexists. split; [reflexivity |]. split; [| intro H; discriminate H].
    intros _ w1' ->. cbn [snd].
    change (_walk_and_validate_chain E dom _) with (_walk_and_validate_chain E dom w3).
    rewrite Hwalk. split; reflexivity.
  - eexists. split; [reflexivity |]. split; [intro H; discriminate H |].
    intros _. split; reflexivity.
Qed.

End StoredChain.

(** X15. When the leaf query is answered with an empty key set and the
    chain is followed, the chain stored in the result is the one that
    [_walk_and_validate_chain] returns when called after the leaf query
    and four readings of the clock, and [chain_valid] is the conjunction
    of [valid] over that chain, true for a chain of no element. When the
    chain is not followed the result has no chain and [chain_valid] is
    false. *)
Theorem test_domain_chain_of_walk :
  forall (E : Env) (config : DNSSECConfig) (dom : string) (w : World),
    leaf_keys E dom w = Ok (Some []) ->
    exists r,
      returns (DNSSECTester.test_domain E config dom) w r /\
      (follow_chain config = true ->
       forall w1, w1 = snd (DNSResolver.get_dnskeys E dom (snd (time_time E w))) ->
         returns (DNSSECTester._walk_and_validate_chain E dom)
                 {| clock_reads := 4 + clock_reads w1; timer_reads := timer_reads w1;
                    queries := queries w1 |}
                 (chain_of_trust r) /\
         chain_valid r = forallb valid (chain_of_trust r)) /\
      (follow_chain config = false -> chain_of_trust r = [] /\ chain_valid r = false).
Proof. exact test_domain_stores_walked_chain. Qed.

Lemma test_domain_chain_of_walk_witness :
  exists r,
    returns (DNSSECTester.test_domain Samples.empty_answer default_config "example.com")
            initial_world r /\
    chain_of_trust r
    = [{| name := "example.com."; rdtype := "DS"; valid := true; keys := [];
          signatures := []; issues := []; element_details := [] |};
       {| name := "com."; rdtype := "DS"; valid := true; keys := [];
          signatures := []; issues := []; element_details := [] |}] /\
    chain_valid r = true.
Proof.
  destruct (test_domain_chain_of_walk Samples.empty_answer default_config
              "example.com" initial_world eq_refl) as [r [H1 [H2 _]]].
  destruct (H2 eq_refl _ eq_refl) as [H3 H4].
  exists r. split; [exact H1 |].
  unfold returns in H3. remember (chain_of_trust r) as chain eqn:Hc in *.
  vm_compute in H3. injection H3 as H3.
  split; [symmetry; exact H3 |]. rewrite H4, <- H3. reflexivity.
Defined.

(** ** Queries sent by a test *)

Section QueryBudget.
Import DNSSECValidator DNSSECTester.
Variable E : Env.
Variable config : DNSSECConfig.

Lemma on_sends_ret {A} (a : A) : on_sends_at_most 0 (on_ret a).
Proof. intros r w. simpl. lia. Qed.

Lemma on_sends_assign f : on_sends_at_most 0 (assign f).
Proof. intros r w. simpl. lia. Qed.

Lemma on_sends_call {A} (n : nat) (c : M A) :
  sends_at_most n c -> on_sends_at_most n (call c).
Proof.
  intros H r w. unfold call. specialize (H w). destruct (c w). exact H.
Qed.

Lemma on_sends_bind {A B} (n : nat) (c : OnResult A) (k : A -> OnResult B) :
  on_sends_at_most 0 c -> (forall a, on_sends_at_most n (k a)) ->
  on_sends_at_most n (on_bind c k).
Proof.
  intros Hc Hk r w. unfold on_bind. specialize (Hc r w).
  destruct (c r w) as [[[a | e] r'] w']; simpl in Hc.
  - specialize (Hk a r' w'). lia.
  - simpl. lia.
Qed.

Lemma on_sends_for_each {A} (l : list A) (body : A -> OnResult unit) :
  (forall x, on_sends_at_most 0 (body x)) -> on_sends_at_most 0 (for_each l body).
Proof.
  intro H. induction l as [| x rest IH]; simpl.
  - apply on_sends_ret.
  - apply on_sends_bind; [apply H | intro; exact IH].
Qed.

Lemma clock_bound_sends_nothing {A} (c : M A) : clock_bound c -> sends_at_most 0 c.
Proof. intros [Hc _] w. destruct (Hc w) as [_ [Hq _]]. lia. Qed.

(** The policy checks of the [try] block send no query: whatever the
    block sends, the chain step sends. *)
Lemma validation_block_sends (n : nat) dom dnskeys :
  on_sends_at_most n
    (if follow_chain config then
       chain <-- call (_walk_and_validate_chain E dom) ;;
       _ <-- assign (set_chain_of_trust chain) ;;
       fun r => assign (set_chain_valid (forallb valid (chain_of_trust r))) r
     else on_ret tt) ->
  on_sends_at_most n (validation_block E config dom dnskeys).
Proof.
  intro Hchain. unfold validation_block.
  apply on_sends_bind; [| intro keys_list].
  { intros r w. unfold call, lift. simpl. lia. }
  apply on_sends_bind; [apply on_sends_assign | intro].
  apply on_sends_bind; [apply on_sends_assign | intro].
  apply on_sends_bind; [| intro].
  { destruct (check_algorithms config); [| apply on_sends_ret].
    apply on_sends_for_each. intro key.
    apply on_sends_bind; [| intro; apply on_sends_assign].
    apply on_sends_call, clock_bound_sends_nothing,
      check_algorithm_strength_clock_bound. }
  apply on_sends_bind; [| intro].
  { destruct (check_key_strength_enabled config); [| apply on_sends_ret].
    apply on_sends_for_each. intro key.
    apply on_sends_bind; [| intro; apply on_sends_assign].
    apply on_sends_call, clock_bound_sends_nothing, check_key_strength_clock_bound. }
  apply on_sends_bind; [| intro].
  { apply on_sends_call, clock_bound_sends_nothing, check_key_rollover_clock_bound. }
  apply on_sends_bind; [apply on_sends_assign | intro].
  exact Hchain.
Qed.

Lemma chain_step_sends (n : nat) dom :
  (follow_chain config = true -> sends_at_most n (_walk_and_validate_chain E dom)) ->
  on_sends_at_most n
    (if follow_chain config then
       chain <-- call (_walk_and_validate_chain E dom) ;;
       _ <-- assign (set_chain_of_trust chain) ;;
       fun r => assign (set_chain_valid (forallb valid (chain_of_trust r))) r
     else on_ret tt).
Proof.
  intro H. destruct (follow_chain config).
  - intros r w. unfold on_bind, call, assign. specialize (H eq_refl w).
    destruct (_walk_and_validate_chain E dom w) as [[chain | e] w']; exact H.
  - intros r w. simpl. lia.
Qed.

Lemma walk_and_validate_chain_sends dom labels :
  name_from_text E dom = Ok (labels ++ [""])%list ->
  sends_at_most (2 * List.length labels) (_walk_and_validate_chain E dom).
Proof.
  intros Hn w.
  destruct (walk_chain_own_levels E dom labels w Hn) as [chain [_ [_ [_ Hq]]]].
  unfold _walk_and_validate_chain, try_except, bind, ret.
  destruct (DNSResolver.walk_chain E dom w) as [[chain_data | e] w']; exact Hq.
Qed.

(** The queries of a whole test: the leaf query and what the [try]
    block sends. *)
Lemma test_domain_sends (n : nat) dom w :
  (follow_chain config = true -> sends_at_most n (_walk_and_validate_chain E dom)) ->
  (queries (snd (test_domain E config dom w)) <= queries w + 1 + n)%nat.
Proof.
  intro Hwalk.
  destruct (query_absorbs E dom DNSKEY (snd (time_time E w)))
    as [answer [w1 [Hq [Hb _]]]].
  assert (Hl : leaf_keys E dom w = Ok answer).
  { unfold leaf_keys, DNSResolver.get_dnskeys. rewrite Hq. reflexivity. }
  assert (Hleaf : (queries (snd (DNSResolver.get_dnskeys E dom (snd (time_time E w))))
                   <= queries w + 1)%nat).
  { unfold DNSResolver.get_dnskeys. rewrite Hq. simpl in *. lia. }
  destruct answer as [records |].
  - destruct (test_domain_through_block E config dom w records Hl)
      as [r0 [w2 [_ [Hw2 [Hok Herr]]]]].
    pose proof (validation_block_sends n dom (Some records)
                  (chain_step_sends n dom Hwalk) r0 w2) as Hsend.
    destruct (validation_block E config dom (Some records) r0 w2)
      as [[[[] | e] r'] w'] eqn:Hblock; simpl in Hsend.
    + destruct (Hok r' w' eq_refl) as [t ->]. simpl. lia.
    + destruct (Herr e r' w' eq_refl) as [t [issue [-> _]]]. simpl. lia.
  - destruct (test_domain_without_keys E config dom w Hl)
      as [r [_ [_ [_ [_ [_ [_ Hqs]]]]]]].
    rewrite Hqs. lia.
Qed.

Lemma test_domain_sends_nothing_without_name dom w e :
  name_from_text E dom = Raise e ->
  queries (snd (test_domain E config dom w)) = queries w.
Proof.
  intro Hn.
  assert (Hl : leaf_keys E dom w = Ok None).
  { unfold leaf_keys, DNSResolver.get_dnskeys.
    rewrite (query_without_name E dom DNSKEY _ e Hn). reflexivity. }
  destruct (test_domain_without_keys E config dom w Hl)
    as [r [_ [_ [_ [_ [_ [_ Hqs]]]]]]].
  rewrite Hqs. unfold DNSResolver.get_dnskeys.
  rewrite (query_without_name E dom DNSKEY _ e Hn). reflexivity.
Qed.

End QueryBudget.

(** X13. A test of one domain sends a bounded number of queries: none
    when the text of the domain does not parse, at most one when
    chain-following is disabled, and at most one plus two per label for
    a domain that parses to an absolute name. The policy checks send
    none. *)
Theorem test_domain_query_budget :
  forall (E : Env) (config : DNSSECConfig) (dom : string) (w : World),
    (forall e, name_from_text E dom = Raise e ->
       queries (snd (DNSSECTester.test_domain E config dom w)) = queries w) /\
    (follow_chain config = false ->
       (queries (snd (DNSSECTester.test_domain E config dom w)) <= queries w + 1)%nat) /\
    (forall labels,
       name_from_text E dom = Ok (labels ++ [""])%list ->
       (queries (snd (DNSSECTester.test_domain E config dom w))
        <= queries w + 1 + 2 * List.length labels)%nat).
Proof.
  intros E config dom w. split; [| split].
  - intro e. apply test_domain_sends_nothing_without_name.
  - intro Hf.
    pose proof (test_domain_sends E config 0 dom w) as H.
    rewrite Nat.add_0_r in H. apply H. intro Ht. congruence.
  - intros labels Hn. apply test_domain_sends.
    intros _. apply walk_and_validate_chain_sends. exact Hn.
Qed.

Lemma test_domain_query_budget_witness :
  (queries (snd (DNSSECTester.test_domain Samples.as_written default_config
                   "www.a.example" initial_world)) <= 7)%nat.
Proof.
  destruct (test_domain_query_budget Samples.as_written default_config "www.a.example"
              initial_world) as [_ [_ H]].
  apply (H ["www"; "a"; "example"]). reflexivity.
Defined.

(** ** Letter case in the two name checks *)

Section LetterCase.
Import DNSSECValidator.
Variable E : Env.

Lemma upper_char_idempotent (c : ascii) :
  PyStr.upper_char (PyStr.upper_char c) = PyStr.upper_char c.
Proof.
  destruct c as [[] [] [] [] [] [] [] []]; reflexivity.
Qed.

Lemma upper_idempotent (s : string) : PyStr.upper (PyStr.upper s) = PyStr.upper s.
Proof.
  induction s as [| c s IH]; simpl; [reflexivity |].
  rewrite upper_char_idempotent, IH. reflexivity.
Qed.

Lemma mem_In (x : string) (S : list string) : PyStr.mem x S = true -> In x S.
Proof.
  unfold PyStr.mem. rewrite existsb_exists. intros [y [Hin Heq]].
  apply String.eqb_eq in Heq. subst y. exact Hin.
Qed.

Lemma table_names_upper (name : string) :
  In name DEPRECATED_ALGORITHMS \/ In name NOT_RECOMMENDED -> PyStr.upper name = name.
Proof.
  simpl. intros [H | H];
    repeat (destruct H as [<- | H]; [reflexivity |]); contradiction.
Qed.

Lemma check_algorithm_strength_other_case (name : string) (w : World) :
  PyStr.upper name <> name ->
  check_algorithm_strength E (AlgName name) w = (Ok [], w).
Proof.
  intro Hcase. unfold check_algorithm_strength. cbv zeta.
  destruct (PyStr.mem name DEPRECATED_ALGORITHMS) eqn:Hd.
  { exfalso. apply Hcase, table_names_upper. left. apply mem_In. exact Hd. }
  destruct (PyStr.mem name NOT_RECOMMENDED) eqn:Hn.
  { exfalso. apply Hcase, table_names_upper. right. apply mem_In. exact Hn. }
  reflexivity.
Qed.

Lemma check_key_strength_any_case (name : string) (bits : Z) (w : World) :
  check_key_strength E (AlgName name) bits w
  = check_key_strength E (AlgName (PyStr.upper name)) bits w.
Proof.
  unfold check_key_strength. cbv beta iota zeta delta [py_str].
  rewrite upper_idempotent. reflexivity.
Qed.

End LetterCase.

(** X14. The two checks on algorithm names treat letter case
    differently. [check_algorithm_strength] compares the name as given:
    a name that is not all upper case is in no table and draws no
    issue, a deprecated algorithm written in lower case included.
    [check_key_strength] upper-cases the name first, so a name and its
    upper-case form give the same issues. *)
Theorem name_checks_letter_case :
  forall (E : Env) (name : string) (bits : Z) (w : World),
    (PyStr.upper name <> name ->
     DNSSECValidator.check_algorithm_strength E (DNSSECValidator.AlgName name) w
     = (Ok [], w)) /\
    DNSSECValidator.check_key_strength E (DNSSECValidator.AlgName name) bits w
    = DNSSECValidator.check_key_strength E
        (DNSSECValidator.AlgName (PyStr.upper name)) bits w.
Proof.
  intros E name bits w. split.
  - apply check_algorithm_strength_other_case.
  - apply check_key_strength_any_case.
Qed.

Lemma name_checks_letter_case_witness :
  DNSSECValidator.check_algorithm_strength Samples.as_written
    (DNSSECValidator.AlgName "rsamd5") initial_world
  = (Ok [], initial_world).
Proof.
  destruct (name_checks_letter_case Samples.as_written "rsamd5" 1024 initial_world)
    as [H _].
  apply H. discriminate.
Defined.
